(** * django-push-notifications: the APNS delivery core and the admin test-send

    A shallow embedding of [push_notifications/apns.py] and of
    [DeviceAdmin.send_messages] from [push_notifications/admin.py].

    Python values are an inductive type with Python's truthiness; keyword
    dictionaries are [gmap string pyval]; the functions that talk to the
    gateway or to the device table live in a state-and-exception monad whose
    state holds the device table and the ordered log of every call made to a
    vendor client.  What the vendor libraries and Django answer is read from
    an environment record, so every statement holds for all behaviours of
    the libraries. *)

From stdpp Require Import gmap strings list fin_maps pretty.
From Stdlib Require Import ZArith.

Set Warnings "-register-all".
Local Open Scope string_scope.

(** ** Python values *)

(** A registration identifier as [_apns_send] receives it: one token, or the
    list of tokens of a bulk send. *)
Inductive token : Type :=
| TStr (s : string)
| TList (l : list string).

Inductive pyval : Type :=
| PNone
| PBool (b : bool)
| PInt (z : Z)
| PStr (s : string)
| PList (l : list pyval)
| PDict (d : gmap string pyval)
| PFun (f : token -> pyval).

(** [bool(v)]: None, False, 0, the empty string, list and dict are false. *)
Definition truthy (v : pyval) : bool :=
  match v with
  | PNone => false
  | PBool b => b
  | PInt z => negb (z =? 0)%Z
  | PStr s => negb (String.eqb s "")
  | PList l => match l with [] => false | _ :: _ => true end
  | PDict d => negb (Nat.eqb (size d) 0)
  | PFun _ => true
  end.

(** [a or b] *)
Definition py_or (a b : pyval) : pyval := if truthy a then a else b.

(** [callable(v)] *)
Definition callable (v : pyval) : bool :=
  match v with PFun _ => true | _ => false end.

(** [v(tok)] for a callable [v]. *)
Definition py_call (v : pyval) (tok : token) : pyval :=
  match v with PFun f => f tok | _ => PNone end.

(** [v == True]: a bool compares as the integer it is, so 1 == True. *)
Definition py_eq_True (v : pyval) : bool :=
  match v with
  | PBool b => b
  | PInt z => (z =? 1)%Z
  | _ => false
  end.

(** [v == s] for a string literal [s]. *)
Definition py_eq_str (v : pyval) (s : string) : bool :=
  match v with PStr s' => String.eqb s' s | _ => false end.

(** The double quote character, for the messages that contain it. *)
Definition dq : string := String (Ascii.ascii_of_nat 34) "".

(** ** Exceptions and results *)

Inductive exn : Type :=
| ImproperlyConfigured (msg : string)
| APNSUnsupportedPriority (msg : string)
| APNSServerError (status : string)
| APNsException (cls : string)        (* apns2.errors: an instance of class cls *)
| GobikoAPNsException (cls : string)  (* gobiko.apns.exceptions: an instance of class cls *)
| GCMError (msg : string)
| TypeError
| AttributeError
| DoesNotExist
| OtherException (name : string).

Inductive result (A : Type) : Type :=
| Return (a : A)
| Raise (e : exn).
Arguments Return {A} a.
Arguments Raise {A} e.

Definition result_bind {A B} (r : result A) (f : A -> result B) : result B :=
  match r with Return a => f a | Raise e => Raise e end.

(** A list comprehension whose element expression may raise: the first
    exception ends it. *)
Fixpoint result_map {A B} (f : A -> result B) (l : list A) : result (list B) :=
  match l with
  | [] => Return []
  | x :: l' =>
      result_bind (f x) (fun y =>
      result_bind (result_map f l') (fun ys => Return (y :: ys)))
  end.

(** ** The state-and-exception monad *)

Definition M (S A : Type) : Type := S -> result A * S.

Definition m_ret {S A} (a : A) : M S A := fun s => (Return a, s).

Definition m_bind {S A B} (m : M S A) (f : A -> M S B) : M S B :=
  fun s => match m s with
           | (Return a, s') => f a s'
           | (Raise e, s') => (Raise e, s')
           end.

Definition raise {S A} (e : exn) : M S A := fun s => (Raise e, s).

Definition lift {S A} (r : result A) : M S A := fun s => (r, s).

(** [try: body except ...: handler]: [handler e] is [None] when no except
    clause matches [e], which then propagates. *)
Definition try_except {S A} (body : M S A) (handler : exn -> option (M S A)) : M S A :=
  fun s => match body s with
           | (Return a, s') => (Return a, s')
           | (Raise e, s') =>
               match handler e with
               | Some h => h s'
               | None => (Raise e, s')
               end
           end.

Notation "x <- m ;; k" := (m_bind m (fun x => k))
  (at level 20, m at level 99, k at level 200, right associativity).
Notation "' p <- m ;; k" := (m_bind m (fun x => let 'p := x in k))
  (at level 20, p pattern, m at level 99, k at level 200, right associativity).
Notation "m ;;; k" := (m_bind m (fun _ => k))
  (at level 100, k at level 200, right associativity).

(** ** Keyword dictionaries *)

(** [d.get(k, default)] *)
Definition dict_get (k : string) (dflt : pyval) (d : gmap string pyval) : pyval :=
  default dflt (d !! k).

(** [d.pop(k, default)]: the value and the dictionary left. *)
Definition dict_pop (k : string) (dflt : pyval) (d : gmap string pyval)
  : pyval * gmap string pyval :=
  (default dflt (d !! k), delete k d).

(** A call [f(a, b, **kwargs)] raises TypeError when [kwargs] names a
    parameter the call has already bound. *)
Definition binds_twice (bound : list string) (kwargs : gmap string pyval) : bool :=
  existsb (fun k => bool_decide (is_Some (kwargs !! k))) bound.

(** [str(v)] of None, booleans, integers and strings; the text of a
    container or of a function is left to [other]. *)
Definition py_str (other : pyval -> string) (v : pyval) : string :=
  match v with
  | PNone => "None"
  | PBool true => "True"
  | PBool false => "False"
  | PInt z => pretty z
  | PStr s => s
  | _ => other v
  end.

(** ["%d" % v]: a number is formatted, anything else is a TypeError. *)
Definition percent_d (v : pyval) : result string :=
  match v with
  | PInt z => Return (pretty z)
  | PBool true => Return "1"
  | PBool false => Return "0"
  | _ => Raise TypeError
  end.

(** ** push_notifications/apns.py *)

Module apns.

(** [apns2_payload.PayloadAlert(body, body_localized_key, body_localized_args,
    action_localized_key)] *)
Record PayloadAlert : Type := {
  body : pyval;
  body_localized_key : pyval;
  body_localized_args : pyval;
  action_localized_key : pyval;
}.

(** What [_apns_prepare] passes as the alert of a payload: the caller's value
    as it is, or a localized-alert structure. *)
Inductive alert_field : Type :=
| AlertPlain (v : pyval)
| AlertLocalized (a : PayloadAlert).

(** [apns2_payload.Payload(alert, badge, sound, content_available,
    mutable_content, category, url_args, custom, thread_id)] *)
Record Payload : Type := {
  alert : alert_field;
  badge : pyval;
  sound : pyval;
  content_available : pyval;
  mutable_content : pyval;
  category : pyval;
  url_args : pyval;
  custom : pyval;
  thread_id : pyval;
}.

(** [apns2_client.Notification(token, payload)] *)
Record Notification : Type := {
  notification_token : token;
  notification_payload : Payload;
}.

(** The keyword dictionary [notification_kwargs] of [_apns_send]: the key
    "expiration" is always set, the key "priority" only for a priority that
    parsed (the enum member, named by its value). *)
Record NotificationKwargs : Type := {
  expiration : pyval;
  priority : option string;
}.

(** [apns2_client.APNsClient(certfile, use_sandbox, use_alternative_port)] *)
Record Client : Type := {
  certfile : pyval;
  use_sandbox : pyval;
  use_alternative_port : pyval;
}.

(** [gobiko.apns.APNsClient(team_id, bundle_id, auth_key_id,
    auth_key_filepath, use_sandbox, force_proto)] *)
Record KeyClient : Type := {
  team_id : pyval;
  bundle_id : pyval;
  auth_key_id : pyval;
  auth_key_filepath : pyval;
  key_use_sandbox : pyval;
  force_proto : string;
}.

(** Modelled from the spec: a row of the Device Registry (models.py is not
    among the sources).  A device has an active flag and an optional owning
    user; its registration identifier is the key of the table, unique per
    gateway kind. *)
Record Device : Type := {
  active : bool;
  user : option Z;
}.

Definition set_active (b : bool) (d : Device) : Device :=
  {| active := b; user := user d |}.

(** Every call that leaves the process, in the order made. *)
Inductive Event : Type :=
| EvAPNsClient (c : Client)
| EvConnect (c : Client)
| EvSendNotification (tok : token) (p : Payload) (topic : pyval) (nk : NotificationKwargs)
| EvSendNotificationBatch (data : list Notification) (topic : pyval) (nk : NotificationKwargs)
| EvKeyClient (c : KeyClient)
| EvKeySendMessage (c : KeyClient) (registration_id : string) (kwargs : gmap string pyval)
| EvKeySendBulkMessage (c : KeyClient) (registration_ids : list string) (kwargs : gmap string pyval)
| EvPrint (s : string).

Record World : Type := {
  devices : gmap string Device;   (* models.APNSDevice.objects *)
  log : list Event;
}.

(** The settings dictionary, the clock, and the answers of the libraries the
    module calls: [None] from a call that returns nothing means it returned,
    [Some e] that it raised [e]. *)
Record Env : Type := {
  SETTINGS : gmap string pyval;
  time_time : Z;                                    (* int(time.time()) *)
  NotificationPriority_values : list string;        (* the values of the enum *)
  str_other : pyval -> string;                      (* str() of containers and functions *)
  APNsClient_init : Client -> option exn;
  client_connect : Client -> option exn;
  client_send_notification :
    Client -> token -> Payload -> pyval -> NotificationKwargs -> option exn;
  client_send_notification_batch :
    Client -> list Notification -> pyval -> NotificationKwargs -> result pyval;
  KeyClient_init : KeyClient -> option exn;
  key_send_message : KeyClient -> string -> gmap string pyval -> result pyval;
  key_send_bulk_message : KeyClient -> list string -> gmap string pyval -> result pyval;
  isinstance_Unregistered : string -> bool;         (* is class cls Unregistered or below it *)
  reason_for_exception_class : string -> string;    (* apns_errors.py, not among the sources *)
}.

Definition emit (ev : Event) (w : World) : World :=
  {| devices := devices w; log := (log w ++ [ev])%list |}.

(** A call to a library: it is logged, then returns or raises. *)
Definition external {A} (ev : Event) (r : result A) : M World A :=
  fun w => (r, emit ev w).

Definition outcome (o : option exn) : result unit :=
  match o with None => Return tt | Some e => Raise e end.

Definition print (s : string) : M World unit := external (EvPrint s) (Return tt).

(** [SETTINGS.get(k)] and [SETTINGS.get(k, default)] *)
Definition SETTINGS_get (E : Env) (k : string) (dflt : pyval) : pyval :=
  dict_get k dflt (SETTINGS E).

(** [apns2_client.NotificationPriority(s)]: the member whose value is [s];
    [None] stands for the ValueError of a value no member has. *)
Definition NotificationPriority (E : Env) (s : string) : option string :=
  if bool_decide (s ∈ NotificationPriority_values E) then Some s else None.

(** *** The device table *)

(** [models.APNSDevice.objects.get(registration_id=rid)] *)
Definition objects_get (rid : string) : M World Device :=
  fun w => match devices w !! rid with
           | Some d => (Return d, w)
           | None => (Raise DoesNotExist, w)
           end.

(** [device.save()] for the device fetched under [rid]. *)
Definition device_save (rid : string) (d : Device) : M World unit :=
  fun w => (Return tt, {| devices := <[rid := d]> (devices w); log := log w |}).

(** [objects.filter(registration_id__in=rids).update(active=b)] *)
Definition objects_filter_in_update_active (rids : list string) (b : bool) : M World unit :=
  fun w => (Return tt,
            {| devices := map_imap (fun rid d =>
                            Some (if bool_decide (rid ∈ rids) then set_active b d else d))
                            (devices w);
               log := log w |}).

(** *** _apns_create_socket *)

Definition _apns_create_socket (E : Env) (certfile : pyval) : M World Client :=
  let certfile := py_or certfile (SETTINGS_get E "APNS_CERTIFICATE" PNone) in
  let client := {| certfile := certfile;
                   use_sandbox := SETTINGS_get E "APNS_USE_SANDBOX" PNone;
                   use_alternative_port := SETTINGS_get E "APNS_USE_ALTERNATIVE_PORT" PNone |} in
  external (EvAPNsClient client) (outcome (APNsClient_init E client));;;
  external (EvConnect client) (outcome (client_connect E client));;;
  m_ret client.

(** *** _apns_prepare *)

Definition _apns_prepare (tok : token)
  (alert badge sound category content_available action_loc_key loc_key loc_args
   extra mutable_content thread_id url_args : pyval) : Payload :=
  let '(apns2_alert, badge) :=
    if truthy action_loc_key || truthy loc_key || truthy loc_args then
      (AlertLocalized {| body := if truthy alert then alert else PDict ∅;
                         body_localized_key := loc_key;
                         body_localized_args := loc_args;
                         action_localized_key := action_loc_key |},
       badge)
    else
      (AlertPlain alert,
       if callable badge then py_call badge tok else badge) in
  {| apns.alert := apns2_alert; apns.badge := badge; apns.sound := sound;
     apns.content_available := content_available;
     apns.mutable_content := mutable_content; apns.category := category;
     apns.url_args := url_args; custom := extra; apns.thread_id := thread_id |}.

(** The keyword parameters of [_apns_prepare]. *)
Definition _apns_prepare_keywords : list string :=
  ["badge"; "sound"; "category"; "content_available"; "action_loc_key"; "loc_key";
   "loc_args"; "extra"; "mutable_content"; "thread_id"; "url_args"].

(** The call [_apns_prepare(tok, alert, **kwargs)]: a key that is no keyword
    parameter (or that names [token] or [alert], bound already) is a
    TypeError; a parameter the dictionary leaves out takes its default. *)
Definition call__apns_prepare (tok : token) (alert : pyval) (kwargs : gmap string pyval)
  : result Payload :=
  if forallb (fun kv => bool_decide (kv.1 ∈ _apns_prepare_keywords)) (map_to_list kwargs) then
    Return (_apns_prepare tok alert
              (dict_get "badge" PNone kwargs)
              (dict_get "sound" PNone kwargs)
              (dict_get "category" PNone kwargs)
              (dict_get "content_available" (PBool false) kwargs)
              (dict_get "action_loc_key" PNone kwargs)
              (dict_get "loc_key" PNone kwargs)
              (dict_get "loc_args" (PList []) kwargs)
              (dict_get "extra" (PDict ∅) kwargs)
              (dict_get "mutable_content" (PBool false) kwargs)
              (dict_get "thread_id" PNone kwargs)
              (dict_get "url_args" PNone kwargs))
  else Raise TypeError.

(** *** _check_auth_key_settings *)

Definition need_to_set (k : string) : string :=
  "You need to set PUSH_NOTIFICATION_SETTINGS[" +:+ dq +:+ k +:+ dq +:+ "]".

Definition _check_auth_key_settings (E : Env) : M World unit :=
  let TEAM_ID := SETTINGS_get E "TEAM_ID" PNone in
  let BUNDLE_ID := SETTINGS_get E "BUNDLE_ID" PNone in
  let APNS_KEY_ID := SETTINGS_get E "APNS_KEY_ID" PNone in
  let APNS_KEY_FILEPATH := SETTINGS_get E "APNS_KEY_FILEPATH" PNone in
  if negb (truthy TEAM_ID) then raise (ImproperlyConfigured (need_to_set "TEAM_ID"))
  else if negb (truthy BUNDLE_ID) then raise (ImproperlyConfigured (need_to_set "BUNDLE_ID"))
  else if negb (truthy APNS_KEY_ID) then raise (ImproperlyConfigured (need_to_set "APNS_KEY_ID"))
  else if negb (truthy APNS_KEY_FILEPATH) then
    raise (ImproperlyConfigured (need_to_set "APNS_KEY_FILEPATH"))
  else m_ret tt.

(** *** _auth_key_apns_send and _auth_key_apns_bulk_send *)

Definition key_client (E : Env) : M World KeyClient :=
  let client := {| team_id := SETTINGS_get E "TEAM_ID" PNone;
                   bundle_id := SETTINGS_get E "BUNDLE_ID" PNone;
                   auth_key_id := SETTINGS_get E "APNS_KEY_ID" PNone;
                   auth_key_filepath := SETTINGS_get E "APNS_KEY_FILEPATH" PNone;
                   key_use_sandbox := SETTINGS_get E "APNS_USE_SANDBOX" (PBool true);
                   force_proto := "h2" |} in
  external (EvKeyClient client) (outcome (KeyClient_init E client));;;
  m_ret client.

Definition _auth_key_apns_send (E : Env) (registration_id : string) (alert : pyval)
  (kwargs : gmap string pyval) : M World pyval :=
  client <- key_client E;;
  let kwargs := <["alert" := alert]> kwargs in
  ret <- external (EvKeySendMessage client registration_id kwargs)
           (key_send_message E client registration_id kwargs);;
  if py_eq_True ret then m_ret (PStr "True") else m_ret ret.

Definition _auth_key_apns_bulk_send (E : Env) (registration_ids : list string)
  (alert : pyval) (kwargs : gmap string pyval) : M World pyval :=
  client <- key_client E;;
  let kwargs := <["alert" := alert]> kwargs in
  external (EvKeySendBulkMessage client registration_ids kwargs)
    (key_send_bulk_message E client registration_ids kwargs).

(** *** _apns_send *)

(** [for rid in registration_id]: the tokens of a list, the characters of a
    string. *)
Definition iterate (registration_id : token) : list token :=
  match registration_id with
  | TList l => TStr <$> l
  | TStr s => (fun c => TStr (String c "")) <$> String.list_ascii_of_string s
  end.

Definition _apns_send (E : Env) (registration_id : token) (alert : pyval) (batch : pyval)
  (kwargs : gmap string pyval) : M World pyval :=
  let '(certfile, kwargs) := dict_pop "certfile" PNone kwargs in
  client <- _apns_create_socket E certfile;;
  let '(expiration, kwargs) := dict_pop "expiration" PNone kwargs in
  let expiration :=
    if negb (truthy expiration) then PInt (time_time E + 2592000) else expiration in
  let '(priority, kwargs) := dict_pop "priority" PNone kwargs in
  nk_priority <-
    (if truthy priority then
       match NotificationPriority E (py_str (str_other E) priority) with
       | Some p => m_ret (Some p)
       | None =>
           msg <- lift (percent_d priority);;
           raise (APNSUnsupportedPriority ("Unsupported priority " +:+ msg))
       end
     else m_ret None);;
  let notification_kwargs := {| expiration := expiration; priority := nk_priority |} in
  if truthy batch then
    data <- lift (result_map
                    (fun rid => result_bind (call__apns_prepare rid alert kwargs)
                                  (fun p => Return {| notification_token := rid;
                                                      notification_payload := p |}))
                    (iterate registration_id));;
    external (EvSendNotificationBatch data (SETTINGS_get E "APNS_TOPIC" PNone)
                notification_kwargs)
      (client_send_notification_batch E client data (SETTINGS_get E "APNS_TOPIC" PNone)
         notification_kwargs)
  else
    data <- lift (call__apns_prepare registration_id alert kwargs);;
    external (EvSendNotification registration_id data (SETTINGS_get E "APNS_TOPIC" PNone)
                notification_kwargs)
      (outcome (client_send_notification E client registration_id data
                  (SETTINGS_get E "APNS_TOPIC" PNone) notification_kwargs));;;
    m_ret PNone.

(** The call [_apns_send(registration_id, alert, **kwargs)] of a single
    send: a key "batch" of the dictionary binds the parameter [batch]. *)
Definition call__apns_send (E : Env) (registration_id : string) (alert : pyval)
  (kwargs : gmap string pyval) : M World pyval :=
  if binds_twice ["registration_id"; "alert"] kwargs then raise TypeError
  else
    let '(batch, kwargs) := dict_pop "batch" (PBool false) kwargs in
    _apns_send E (TStr registration_id) alert batch kwargs.

(** The call [_apns_send(registration_ids, alert, batch=True, **kwargs)] of a
    bulk send. *)
Definition call__apns_send_batch (E : Env) (registration_ids : list string) (alert : pyval)
  (kwargs : gmap string pyval) : M World pyval :=
  if binds_twice ["registration_id"; "alert"; "batch"] kwargs then raise TypeError
  else _apns_send E (TList registration_ids) alert (PBool true) kwargs.

(** *** apns_send_message *)

Definition apns_send_message (E : Env) (registration_id : string) (alert : pyval)
  (kwargs : gmap string pyval) : M World pyval :=
  if truthy (SETTINGS_get E "USE_APNS_KEY" (PBool false)) then
    _check_auth_key_settings E;;;
    print "sending using APNS key";;;
    (if binds_twice ["registration_id"; "alert"] kwargs then raise TypeError
     else _auth_key_apns_send E registration_id alert kwargs)
  else
    try_except
      (call__apns_send E registration_id alert kwargs;;; m_ret PNone)
      (fun e =>
         match e with
         | APNsException cls =>
             Some ((if isinstance_Unregistered E cls then
                      device <- objects_get registration_id;;
                      device_save registration_id (set_active false device)
                    else m_ret tt);;;
                   raise (APNSServerError (reason_for_exception_class E cls)))
         | _ => None
         end).

(** *** apns_send_bulk_message *)

(** [results.items()]: only a dictionary has items. *)
Definition items (results : pyval) : result (list (string * pyval)) :=
  match results with
  | PDict d => Return (map_to_list d)
  | _ => Raise AttributeError
  end.

Definition apns_send_bulk_message (E : Env) (registration_ids : list string) (alert : pyval)
  (kwargs : gmap string pyval) : M World pyval :=
  if truthy (SETTINGS_get E "USE_APNS_KEY" (PBool false)) then
    _check_auth_key_settings E;;;
    print "sending using APNS key";;;
    (if binds_twice ["registration_ids"; "alert"] kwargs then raise TypeError
     else _auth_key_apns_bulk_send E registration_ids alert kwargs)
  else
    results <- call__apns_send_batch E registration_ids alert kwargs;;
    results_items <- lift (items results);;
    let inactive_tokens :=
      (filter (fun tr => py_eq_str tr.2 "Unregistered" = true) results_items).*1 in
    objects_filter_in_update_active inactive_tokens false;;;
    m_ret results.

End apns.

(** ** push_notifications/admin.py *)

Module admin.

(** A device of the queryset, named by its registration identifier; the
    queryset is the list of its devices in iteration order. *)
Definition device : Type := string.

(** [self.message_user(request, _(template % argument), level)]: the text is
    kept as its template and argument; [level] is [None] when the call
    leaves it to its default. *)
Record UserMessage : Type := {
  template : string;
  argument : pyval;
  level : option string;
}.

Inductive Event : Type :=
| EvQuerysetSend (queryset : list device) (message : string)
| EvDeviceSend (d : device) (message : string)
| EvPrint (e : exn)
| EvMessageUser (m : UserMessage).

(** What the send methods of models.py (not among the sources) answer. *)
Record Env : Type := {
  queryset_send_message : list device -> string -> result pyval;
  device_send_message : device -> string -> result pyval;
}.

Definition external {A} (ev : Event) (r : result A) : M (list Event) A :=
  fun w => (r, (w ++ [ev])%list).

Definition print (e : exn) : M (list Event) unit := external (EvPrint e) (Return tt).

Definition message_user (m : UserMessage) : M (list Event) unit :=
  external (EvMessageUser m) (Return tt).

(** [", ".join(l)]: every item must be a string. *)
Fixpoint strings_of (l : list pyval) : result (list string) :=
  match l with
  | [] => Return []
  | PStr s :: l' => result_bind (strings_of l') (fun ss => Return (s :: ss))
  | _ :: _ => Raise TypeError
  end.

Definition join (sep : string) (l : list pyval) : result string :=
  result_bind (strings_of l) (fun ss => Return (String.concat sep ss)).

(** The body of [for device in queryset], with the lists [ret] and [errors]
    as they stand when the iteration starts: the try statement, then the
    break of a bulk send. *)
Fixpoint send_messages_loop (E : Env) (queryset : list device) (bulk : bool)
  (remaining : list device) (ret : list pyval) (errors : list string)
  : M (list Event) (list pyval * list string) :=
  match remaining with
  | [] => m_ret (ret, errors)
  | d :: remaining' =>
      '(ret, errors) <-
        try_except
          (r <- (if bulk then
                   external (EvQuerysetSend queryset "Test bulk notification")
                     (queryset_send_message E queryset "Test bulk notification")
                 else
                   external (EvDeviceSend d "Test single notification")
                     (device_send_message E d "Test single notification"));;
           m_ret (if truthy r then (ret ++ [r])%list else ret, errors))
          (fun e =>
             match e with
             | GCMError msg => Some (print e;;; m_ret (ret, (errors ++ [msg])%list))
             | APNSServerError status => Some (print e;;; m_ret (ret, (errors ++ [status])%list))
             | GobikoAPNsException cls => Some (print e;;; m_ret (ret, (errors ++ [cls])%list))
             | _ => None
             end);;
      if bulk then m_ret (ret, errors)
      else send_messages_loop E queryset bulk remaining' ret errors
  end.

Definition send_messages (E : Env) (queryset : list device) (bulk : bool)
  : M (list Event) unit :=
  '(ret, errors) <- send_messages_loop E queryset bulk queryset [] [];;
  (match errors with
   | [] => m_ret tt
   | _ :: _ =>
       message_user {| template := "Some messages could not be processed: %r";
                       argument := PStr (String.concat ", " errors);
                       level := Some "ERROR" |}
   end);;;
  match ret with
  | [] => m_ret tt
  | _ :: _ =>
      ret <- (if negb bulk then s <- lift (join ", " ret);; m_ret (PStr s)
              else m_ret (PList ret));;
      message_user {| template := match errors with
                                  | [] => "All messages were sent: %s"
                                  | _ :: _ => "Some messages were sent: %s"
                                  end;
                      argument := ret;
                      level := None |}
  end.

(** [send_message] and [send_bulk_message], the two admin actions. *)
Definition send_message (E : Env) (queryset : list device) : M (list Event) unit :=
  send_messages E queryset false.

Definition send_bulk_message (E : Env) (queryset : list device) : M (list Event) unit :=
  send_messages E queryset true.

(** How many queryset-level and how many per-device sends a log holds. *)
Definition is_queryset_send (ev : Event) : bool :=
  match ev with EvQuerysetSend _ _ => true | _ => false end.

Definition is_device_send (ev : Event) : bool :=
  match ev with EvDeviceSend _ _ => true | _ => false end.

Definition is_user_message (ev : Event) : bool :=
  match ev with EvMessageUser _ => true | _ => false end.

Definition count (p : Event -> bool) (l : list Event) : nat := length (List.filter p l).

End admin.

(** ** Reading a log *)

Module trace.
Import apns.

(** The keyword dictionary a send call went out with. *)
Definition sent_kwargs (ev : Event) : option NotificationKwargs :=
  match ev with
  | EvSendNotification _ _ _ nk => Some nk
  | EvSendNotificationBatch _ _ nk => Some nk
  | _ => None
  end.


Definition is_send (ev : Event) : bool :=
  match ev with
  | EvSendNotification _ _ _ _ | EvSendNotificationBatch _ _ _
  | EvKeySendMessage _ _ _ | EvKeySendBulkMessage _ _ _ => true
  | _ => false
  end.


(** The events a run added to the log it started from. *)
Definition new_events (w w' : World) : list Event := drop (length (log w)) (log w').

End trace.

(** ** A gateway to run the functions against *)

Module scenario.
Import apns.

Definition certificate_settings : gmap string pyval :=
  list_to_map [("APNS_CERTIFICATE", PStr "apns.pem"); ("APNS_TOPIC", PStr "com.example.app")].

(** Token-based auth selected, the key file path left out. *)
Definition key_settings : gmap string pyval :=
  list_to_map [("USE_APNS_KEY", PBool true); ("TEAM_ID", PStr "TEAM");
               ("BUNDLE_ID", PStr "com.example.app"); ("APNS_KEY_ID", PStr "KEY")].

(** Token-based auth with its four credentials. *)
Definition complete_key_settings : gmap string pyval :=
  <["APNS_KEY_FILEPATH" := PStr "AuthKey.p8"]> key_settings.

(** The outcome the gateway has for a token: B is no longer registered, C is
    refused for another reason, every other token is accepted. *)
Definition verdict (tok : string) : option string :=
  if String.eqb tok "B" then Some "Unregistered"
  else if String.eqb tok "C" then Some "BadDeviceToken"
  else None.

Definition batch_outcome (n : Notification) : list (string * pyval) :=
  match notification_token n with
  | TStr tok => [(tok, PStr (default "Success" (verdict tok)))]
  | TList _ => []
  end.

Definition gateway (settings : gmap string pyval) (key_answer : result pyval) : Env :=
  {| SETTINGS := settings;
     time_time := 1700000000;
     NotificationPriority_values := ["10"; "5"];
     str_other := fun _ => "<object>";
     APNsClient_init := fun _ => None;
     client_connect := fun _ => None;
     client_send_notification := fun _ tok _ _ _ =>
       match tok with
       | TStr tok => APNsException <$> verdict tok
       | TList _ => Some TypeError
       end;
     client_send_notification_batch := fun _ data _ _ =>
       Return (PDict (list_to_map (data ≫= batch_outcome)));
     KeyClient_init := fun _ => None;
     key_send_message := fun _ _ _ => key_answer;
     key_send_bulk_message := fun _ _ _ => key_answer;
     isinstance_Unregistered := fun cls => String.eqb cls "Unregistered";
     reason_for_exception_class := fun cls => cls |}.

Definition registered : Device := {| active := true; user := None |}.

(** Three registered devices and an empty log. *)
Definition start : World :=
  {| devices := list_to_map [("A", registered); ("B", registered); ("C", registered)];
     log := [] |}.

(** A badge that depends on the recipient. *)
Definition badge_of (tok : token) : pyval :=
  match tok with
  | TStr tok => PInt (Z.of_nat (String.length tok))
  | TList _ => PInt 0
  end.

(** The send methods of the admin: a queryset-level send answers with the
    outcome mapping, a per-device send raises for the device B. *)
Definition admin_gateway : admin.Env :=
  {| admin.queryset_send_message := fun queryset _ =>
       Return (PDict (list_to_map ((fun d => (d, PStr (default "Success" (verdict d))))
                                     <$> queryset)));
     admin.device_send_message := fun d _ =>
       match verdict d with
       | Some reason => Raise (APNSServerError reason)
       | None => Return (PStr "sent")
       end |}.

End scenario.

(** ** Reading the log of the admin *)

Module report.

(** The text the except clauses of [send_messages] record for an exception:
    the message of a GCMError, the status of an APNSServerError, the class
    name of a key-client APNsException; [None] for an exception no clause
    catches. *)
Definition caught (e : exn) : option string :=
  match e with
  | GCMError msg => Some msg
  | APNSServerError status => Some status
  | GobikoAPNsException cls => Some cls
  | _ => None
  end.

(** An answer of a send method that lets the loop go on: a return value, or
    an exception one of the except clauses catches. *)
Definition handled (r : result pyval) : bool :=
  match r with
  | Return _ => true
  | Raise e => match caught e with Some _ => true | None => false end
  end.

(** What one answer adds to the list [ret] and to the list [errors]. *)
Definition kept (r : result pyval) : list pyval :=
  match r with
  | Return v => if truthy v then [v] else []
  | Raise _ => []
  end.

Definition failed (r : result pyval) : list string :=
  match r with
  | Return _ => []
  | Raise e => match caught e with Some text => [text] | None => [] end
  end.

(** The devices of the per-device sends of a log, and its messages to the
    user, in order. *)
Definition device_sends (l : list admin.Event) : list admin.device :=
  omap (fun ev => match ev with admin.EvDeviceSend d _ => Some d | _ => None end) l.

Definition user_messages (l : list admin.Event) : list admin.UserMessage :=
  omap (fun ev => match ev with admin.EvMessageUser m => Some m | _ => None end) l.

(** The message [send_messages] shows for failures, and the one for
    results. *)
Definition error_message (errors : list string) : admin.UserMessage :=
  {| admin.template := "Some messages could not be processed: %r";
     admin.argument := PStr (String.concat ", " errors);
     admin.level := Some "ERROR" |}.

Definition success_message (all : bool) (ret : pyval) : admin.UserMessage :=
  {| admin.template := if all then "All messages were sent: %s"
                       else "Some messages were sent: %s";
     admin.argument := ret;
     admin.level := None |}.

End report.

(** ** More gateways to run the functions against *)

Module cases.
Import apns.

(** A gateway that cannot be reached: connecting raises. *)
Definition offline : Env :=
  {| SETTINGS := scenario.certificate_settings;
     time_time := 1700000000;
     NotificationPriority_values := ["10"; "5"];
     str_other := fun _ => "<object>";
     APNsClient_init := fun _ => None;
     client_connect := fun _ => Some (APNsException "ConnectionFailed");
     client_send_notification := fun _ _ _ _ _ => None;
     client_send_notification_batch := fun _ _ _ _ => Return (PDict ∅);
     KeyClient_init := fun _ => None;
     key_send_message := fun _ _ _ => Return (PBool true);
     key_send_bulk_message := fun _ _ _ => Return (PBool true);
     isinstance_Unregistered := fun cls => String.eqb cls "Unregistered";
     reason_for_exception_class := fun cls => cls |}.

(** The send methods of an admin whose device C fails with an exception no
    except clause catches. *)
Definition misconfigured_admin : admin.Env :=
  {| admin.queryset_send_message := fun _ _ => Raise (ImproperlyConfigured "TEAM_ID");
     admin.device_send_message := fun d _ =>
       if String.eqb d "C" then Raise (ImproperlyConfigured "TEAM_ID")
       else Return (PStr "sent") |}.

(** A device table with no row. *)
Definition no_devices : World := {| devices := ∅; log := [] |}.

End cases.

(** * Properties *)

Import apns trace.

(** ** The monad *)

Lemma m_bind_Return {S A B} (m : M S A) (f : A -> M S B) s a s' :
  m s = (Return a, s') -> m_bind m f s = f a s'.
Proof. intros H. unfold m_bind. by rewrite H. Qed.

Lemma m_bind_Raise {S A B} (m : M S A) (f : A -> M S B) s e s' :
  m s = (Raise e, s') -> m_bind m f s = (Raise e, s').
Proof. intros H. unfold m_bind. by rewrite H. Qed.

Lemma new_events_app w w' evs :
  log w' = (log w ++ evs)%list -> new_events w w' = evs.
Proof. intros H. unfold new_events. rewrite H. by rewrite drop_app_length. Qed.

(** ** Frame: what a certificate-path transport call leaves alone *)

(** [_apns_send] never writes to the device table, and only appends to the
    log. *)
Lemma _apns_send_frame E registration_id alert batch kwargs w :
  let w' := (_apns_send E registration_id alert batch kwargs w).2 in
  devices w' = devices w /\ exists evs, log w' = (log w ++ evs)%list.
Proof.
  unfold _apns_send, _apns_create_socket, dict_pop, m_bind, external, lift, m_ret, raise, emit.
  simpl.
  repeat case_match; simplify_eq/=; split; try done;
    rewrite <- ?app_assoc; eexists; reflexivity.
Qed.

(** ** C7: the default expiration *)

(** The expiration every send of one [_apns_send] run goes out with. *)
Lemma _apns_send_expiration E registration_id alert batch kwargs w :
  exists evs,
    log (_apns_send E registration_id alert batch kwargs w).2 = (log w ++ evs)%list /\
    forall nk, nk ∈ omap sent_kwargs evs ->
      expiration nk =
        if truthy (dict_get "expiration" PNone kwargs)
        then dict_get "expiration" PNone kwargs
        else PInt (time_time E + 2592000).
Proof.
  unfold _apns_send, _apns_create_socket, dict_pop, dict_get, m_bind, external, lift,
    m_ret, raise, emit.
  rewrite (lookup_delete_ne kwargs "certfile" "expiration") by done.
  simpl.
  repeat case_match; simplify_eq/=; rewrite <- ?app_assoc;
    (eexists; split; [reflexivity|]); intros nk' Hnk; simpl in Hnk;
    repeat (apply elem_of_cons in Hnk as [->|Hnk]); try (by inversion Hnk);
    simpl; by destruct (truthy _).
Qed.

(** C7. In every certificate-path send, a notification goes out with the
    expiration the caller supplied when that value is set (truthy), and with
    the current time plus 2,592,000 seconds when no expiration is supplied or
    the supplied one is unset (None, 0, empty). *)
Theorem expiration_defaults_to_thirty_days E registration_id alert batch kwargs w nk :
  nk ∈ omap sent_kwargs
         (new_events w (_apns_send E registration_id alert batch kwargs w).2) ->
  (kwargs !! "expiration" = None -> expiration nk = PInt (time_time E + 2592000)) /\
  (forall v, kwargs !! "expiration" = Some v ->
     (truthy v = false -> expiration nk = PInt (time_time E + 2592000)) /\
     (truthy v = true -> expiration nk = v)).
Proof.
  intros Hin.
  destruct (_apns_send_expiration E registration_id alert batch kwargs w)
    as (evs & Hlog & Hexp).
  rewrite (new_events_app _ _ _ Hlog) in Hin.
  specialize (Hexp nk Hin). unfold dict_get in Hexp.
  split.
  - intros Hnone. by rewrite Hnone in Hexp.
  - intros v Hsome. rewrite Hsome in Hexp. simpl in Hexp.
    split; intros Hv; by rewrite Hv in Hexp.
Qed.

Lemma expiration_defaults_to_thirty_days_witness :
  let E := scenario.gateway scenario.certificate_settings (Return PNone) in
  let default_nk := {| expiration := PInt 1702592000; priority := None |} in
  let given_nk := {| expiration := PInt 1800000000; priority := None |} in
  let given := {["expiration" := PInt 1800000000]} in
  (default_nk ∈ omap sent_kwargs
     (new_events scenario.start
        (_apns_send E (TStr "A") (PStr "hello") (PBool false) ∅ scenario.start).2) /\
   expiration default_nk = PInt (time_time E + 2592000)) /\
  (given_nk ∈ omap sent_kwargs
     (new_events scenario.start
        (_apns_send E (TList ["A"; "B"]) (PStr "hello") (PBool true) given scenario.start).2) /\
   expiration given_nk = PInt 1800000000).
Proof.
  intros E default_nk given_nk given.
  assert (H1 : default_nk ∈ omap sent_kwargs
     (new_events scenario.start
        (_apns_send E (TStr "A") (PStr "hello") (PBool false) ∅ scenario.start).2))
    by (vm_compute; apply list_elem_of_here).
  assert (H2 : given_nk ∈ omap sent_kwargs
     (new_events scenario.start
        (_apns_send E (TList ["A"; "B"]) (PStr "hello") (PBool true) given scenario.start).2))
    by (vm_compute; apply list_elem_of_here).
  split; (split; [assumption|]).
  - apply (proj1 (expiration_defaults_to_thirty_days _ _ _ _ _ _ _ H1)).
    vm_compute; reflexivity.
  - apply (proj2 (expiration_defaults_to_thirty_days _ _ _ _ _ _ _ H2) (PInt 1800000000));
      vm_compute; reflexivity.
Defined.

(** ** C1: a certificate-path bulk send *)

Lemma call__apns_send_batch_frame E registration_ids alert kwargs w :
  devices (call__apns_send_batch E registration_ids alert kwargs w).2 = devices w.
Proof.
  unfold call__apns_send_batch. case_match; [done|].
  apply _apns_send_frame.
Qed.

Lemma py_eq_str_true v s : py_eq_str v s = true <-> v = PStr s.
Proof.
  destruct v; simpl; try (split; [discriminate|by inversion 1]).
  rewrite String.eqb_eq. split; [by intros ->|by inversion 1].
Qed.

(** The tokens the list comprehension of [apns_send_bulk_message] collects. *)
Lemma inactive_tokens_spec (results : gmap string pyval) rid :
  rid ∈ (filter (fun tr => py_eq_str tr.2 "Unregistered" = true) (map_to_list results)).*1
  <-> results !! rid = Some (PStr "Unregistered").
Proof.
  rewrite list_elem_of_fmap. split.
  - intros ([rid' v] & -> & Hin). apply list_elem_of_filter in Hin as [Heq Hin].
    apply elem_of_map_to_list in Hin. simpl in *.
    apply py_eq_str_true in Heq. by subst.
  - intros Hlook. exists (rid, PStr "Unregistered"). split; [done|].
    apply list_elem_of_filter. split; [by apply py_eq_str_true|].
    by apply elem_of_map_to_list.
Qed.

(** C1. On the certificate path, when the transport returns the outcome
    mapping [results], the bulk send raises nothing and returns [results]
    itself; a device whose token maps to "Unregistered" ends inactive, and
    every other device of the table is as it was. *)
Theorem bulk_send_deactivates_exactly_the_unregistered
  E registration_ids alert kwargs w results w1 :
  truthy (SETTINGS_get E "USE_APNS_KEY" (PBool false)) = false ->
  call__apns_send_batch E registration_ids alert kwargs w = (Return (PDict results), w1) ->
  exists w',
    apns_send_bulk_message E registration_ids alert kwargs w = (Return (PDict results), w') /\
    log w' = log w1 /\
    (forall rid d, devices w !! rid = Some d ->
       results !! rid = Some (PStr "Unregistered") ->
       devices w' !! rid = Some (set_active false d)) /\
    (forall rid, results !! rid <> Some (PStr "Unregistered") ->
       devices w' !! rid = devices w !! rid).
Proof.
  intros Hcert Hsend.
  pose proof (call__apns_send_batch_frame E registration_ids alert kwargs w) as Hdev.
  rewrite Hsend in Hdev. simpl in Hdev.
  unfold apns_send_bulk_message. rewrite Hcert.
  rewrite (m_bind_Return _ _ _ _ _ Hsend).
  unfold m_bind, lift, items, objects_filter_in_update_active, m_ret. simpl.
  eexists. split; [reflexivity|]. simpl. split; [done|].
  split.
  - intros rid d Hd Hres. rewrite map_lookup_imap, Hdev, Hd. simpl.
    rewrite bool_decide_eq_true_2; [done|]. by apply inactive_tokens_spec.
  - intros rid Hres. rewrite map_lookup_imap, Hdev.
    destruct (devices w !! rid) as [d|]; [|done]. simpl.
    rewrite bool_decide_eq_false_2; [done|]. by rewrite inactive_tokens_spec.
Qed.

Lemma bulk_send_deactivates_exactly_the_unregistered_witness :
  let E := scenario.gateway scenario.certificate_settings (Return PNone) in
  let results : gmap string pyval :=
    list_to_map [("A", PStr "Success"); ("B", PStr "Unregistered"); ("C", PStr "BadDeviceToken")] in
  exists w',
    apns_send_bulk_message E ["A"; "B"; "C"] (PStr "hello") ∅ scenario.start
      = (Return (PDict results), w') /\
    active <$> devices w' !! "A" = Some true /\
    active <$> devices w' !! "B" = Some false /\
    active <$> devices w' !! "C" = Some true.
Proof.
  intros E results.
  destruct (bulk_send_deactivates_exactly_the_unregistered E ["A"; "B"; "C"] (PStr "hello") ∅
              scenario.start results
              (call__apns_send_batch E ["A"; "B"; "C"] (PStr "hello") ∅ scenario.start).2
              ltac:(vm_compute; reflexivity) ltac:(vm_compute; reflexivity))
    as (w' & Hrun & _ & Hoff & Hkeep).
  exists w'. split; [exact Hrun|].
  split; [|split].
  - rewrite (Hkeep "A"); [vm_compute; reflexivity|vm_compute; discriminate].
  - rewrite (Hoff "B" scenario.registered); vm_compute; reflexivity.
  - rewrite (Hkeep "C"); [vm_compute; reflexivity|vm_compute; discriminate].
Defined.

(** ** C2: a certificate-path single send the gateway refuses *)

Lemma call__apns_send_frame E registration_id alert kwargs w :
  devices (call__apns_send E registration_id alert kwargs w).2 = devices w.
Proof.
  unfold call__apns_send. case_match; [done|].
  unfold dict_pop. apply _apns_send_frame.
Qed.

(** C2 as the code has it. On the certificate path, when the transport
    raises a gateway exception of class [cls]: if [cls] is Unregistered (or
    below it) and a device is stored under the registration identifier, that
    device is saved with active=false and then APNSServerError is raised with
    the reason of the class; if [cls] is Unregistered and no device is stored
    under the identifier, the lookup raises DoesNotExist, which is what the
    caller gets, and nothing is written; if [cls] is not Unregistered,
    APNSServerError is raised with the reason of the class and the device
    table is untouched. *)
Theorem single_send_deactivates_unregistered_then_raises
  E registration_id alert kwargs w cls w1 :
  truthy (SETTINGS_get E "USE_APNS_KEY" (PBool false)) = false ->
  call__apns_send E registration_id alert kwargs w = (Raise (APNsException cls), w1) ->
  (isinstance_Unregistered E cls = true ->
   (forall d, devices w !! registration_id = Some d ->
      apns_send_message E registration_id alert kwargs w =
        (Raise (APNSServerError (reason_for_exception_class E cls)),
         {| devices := <[registration_id := set_active false d]> (devices w);
            log := log w1 |})) /\
   (devices w !! registration_id = None ->
      apns_send_message E registration_id alert kwargs w = (Raise DoesNotExist, w1) /\
      devices w1 = devices w)) /\
  (isinstance_Unregistered E cls = false ->
   apns_send_message E registration_id alert kwargs w =
     (Raise (APNSServerError (reason_for_exception_class E cls)), w1) /\
   devices w1 = devices w).
Proof.
  intros Hcert Hsend.
  pose proof (call__apns_send_frame E registration_id alert kwargs w) as Hdev.
  rewrite Hsend in Hdev. simpl in Hdev.
  unfold apns_send_message. rewrite Hcert. unfold try_except.
  rewrite (m_bind_Raise _ _ _ _ _ Hsend).
  split.
  - intros Hun. rewrite Hun. unfold m_bind, objects_get, device_save, raise.
    rewrite Hdev. split.
    + intros d Hd. rewrite Hd. simpl. by rewrite Hdev.
    + intros Hd. by rewrite Hd.
  - intros Hun. by rewrite Hun.
Qed.

Lemma single_send_deactivates_unregistered_then_raises_witness :
  let E := scenario.gateway scenario.certificate_settings (Return PNone) in
  let kwargs : gmap string pyval := ∅ in
  (exists w', apns_send_message E "B" (PStr "hello") kwargs scenario.start
                = (Raise (APNSServerError "Unregistered"), w') /\
              active <$> devices w' !! "B" = Some false) /\
  (apns_send_message E "B" (PStr "hello") kwargs cases.no_devices).1 = Raise DoesNotExist /\
  (exists w', apns_send_message E "C" (PStr "hello") kwargs scenario.start
                = (Raise (APNSServerError "BadDeviceToken"), w') /\
              devices w' = devices scenario.start).
Proof.
  intros E kwargs.
  assert (Hcert : truthy (SETTINGS_get E "USE_APNS_KEY" (PBool false)) = false)
    by (vm_compute; reflexivity).
  assert (HB : call__apns_send E "B" (PStr "hello") kwargs scenario.start
               = (Raise (APNsException "Unregistered"),
                  (call__apns_send E "B" (PStr "hello") kwargs scenario.start).2))
    by (vm_compute; reflexivity).
  assert (HB0 : call__apns_send E "B" (PStr "hello") kwargs cases.no_devices
                = (Raise (APNsException "Unregistered"),
                   (call__apns_send E "B" (PStr "hello") kwargs cases.no_devices).2))
    by (vm_compute; reflexivity).
  assert (HC : call__apns_send E "C" (PStr "hello") kwargs scenario.start
               = (Raise (APNsException "BadDeviceToken"),
                  (call__apns_send E "C" (PStr "hello") kwargs scenario.start).2))
    by (vm_compute; reflexivity).
  assert (Hun : isinstance_Unregistered E "Unregistered" = true) by reflexivity.
  assert (Hother : isinstance_Unregistered E "BadDeviceToken" = false) by reflexivity.
  split; [|split].
  - destruct (single_send_deactivates_unregistered_then_raises E "B" (PStr "hello") kwargs
                scenario.start _ _ Hcert HB) as [Hoff _].
    destruct (Hoff Hun) as [Hstored _].
    eexists. split.
    + apply (Hstored scenario.registered). vm_compute; reflexivity.
    + vm_compute; reflexivity.
  - destruct (single_send_deactivates_unregistered_then_raises E "B" (PStr "hello") kwargs
                cases.no_devices _ _ Hcert HB0) as [Hoff _].
    destruct (Hoff Hun) as [_ Hmissing].
    destruct (Hmissing ltac:(vm_compute; reflexivity)) as [Hrun _].
    by rewrite Hrun.
  - destruct (single_send_deactivates_unregistered_then_raises E "C" (PStr "hello") kwargs
                scenario.start _ _ Hcert HC) as [_ Hkeep].
    destruct (Hkeep Hother) as [Hrun Hdev].
    eexists. split; [exact Hrun | exact Hdev].
Defined.

(** C2 as the spec states it fails: the gateway reports the token B as
    unregistered, no device is stored under B, and the caller gets the
    DoesNotExist of the lookup, not an APNSServerError. *)
Lemma unregistered_token_without_device_raises_DoesNotExist :
  let E := scenario.gateway scenario.certificate_settings (Return PNone) in
  let kwargs : gmap string pyval := ∅ in
  truthy (SETTINGS_get E "USE_APNS_KEY" (PBool false)) = false /\
  (call__apns_send E "B" (PStr "hello") kwargs cases.no_devices).1
    = Raise (APNsException "Unregistered") /\
  isinstance_Unregistered E "Unregistered" = true /\
  (apns_send_message E "B" (PStr "hello") kwargs cases.no_devices).1 = Raise DoesNotExist.
Proof. vm_compute. repeat split; reflexivity. Qed.

(** When no device is stored under the identifier, the lookup of the
    handler raises instead, and that is what the caller sees. *)
Lemma single_send_unregistered_unknown_device
  E registration_id alert kwargs w cls w1 :
  truthy (SETTINGS_get E "USE_APNS_KEY" (PBool false)) = false ->
  call__apns_send E registration_id alert kwargs w = (Raise (APNsException cls), w1) ->
  isinstance_Unregistered E cls = true ->
  devices w !! registration_id = None ->
  apns_send_message E registration_id alert kwargs w = (Raise DoesNotExist, w1).
Proof.
  intros Hcert Hsend Hun Hd.
  pose proof (call__apns_send_frame E registration_id alert kwargs w) as Hdev.
  rewrite Hsend in Hdev. simpl in Hdev.
  unfold apns_send_message. rewrite Hcert. unfold try_except.
  rewrite (m_bind_Raise _ _ _ _ _ Hsend), Hun.
  unfold m_bind, objects_get. by rewrite Hdev, Hd.
Qed.

(** ** C3: a priority the enum does not have *)






(** A priority that is no number never becomes APNSUnsupportedPriority: the
    message is built with a number format, which raises TypeError. *)
Lemma unsupported_text_priority_is_a_TypeError :
  let E := scenario.gateway scenario.certificate_settings (Return PNone) in
  (_apns_send E (TStr "A") (PStr "hello") (PBool false)
     {["priority" := PStr "urgent-but-unknown"]} scenario.start).1 = Raise TypeError.
Proof. vm_compute. done. Qed.

(** ** C4 and C5: the payload builder *)

(** Without localization fields a callable badge is called with the
    recipient and its value is what the payload carries; any other badge is
    carried as given. *)
Lemma _apns_prepare_plain_badge
  tok alert badge sound category content_available action_loc_key loc_key loc_args
  extra mutable_content thread_id url_args :
  truthy action_loc_key || truthy loc_key || truthy loc_args = false ->
  apns.badge (_apns_prepare tok alert badge sound category content_available
                action_loc_key loc_key loc_args extra mutable_content thread_id url_args)
  = if callable badge then py_call badge tok else badge.
Proof. intros H. unfold _apns_prepare. by rewrite H. Qed.

(** With a localization field the branch that evaluates the badge is not
    taken: the payload carries the badge as given, a callable included. *)
Lemma _apns_prepare_localized_badge
  tok alert badge sound category content_available action_loc_key loc_key loc_args
  extra mutable_content thread_id url_args :
  truthy action_loc_key || truthy loc_key || truthy loc_args = true ->
  apns.badge (_apns_prepare tok alert badge sound category content_available
                action_loc_key loc_key loc_args extra mutable_content thread_id url_args)
  = badge.
Proof. intros H. unfold _apns_prepare. by rewrite H. Qed.

(** C4 at the failing input. For the recipients A and BB and a badge that is
    a function of the recipient, a plain alert gives the two payloads the two
    evaluated badges 1 and 2; with a localization key the two payloads both
    carry the function itself, unevaluated. *)
Lemma badge_callable_unevaluated_with_localized_alert :
  let build tok loc_key :=
    _apns_prepare (TStr tok) (PStr "hello") (PFun scenario.badge_of) PNone PNone
      (PBool false) PNone loc_key (PList []) (PDict ∅) (PBool false) PNone PNone in
  apns.badge (build "A" PNone) = PInt 1 /\
  apns.badge (build "BB" PNone) = PInt 2 /\
  apns.badge (build "A" (PStr "GREETING")) = PFun scenario.badge_of /\
  apns.badge (build "BB" (PStr "GREETING")) = PFun scenario.badge_of.
Proof. vm_compute. done. Qed.

(** C5. When one of the action-localization key, the body-localization key
    and the body-localization args is set (truthy), the payload alert is the
    localized-alert structure of the body (the alert, or an empty dictionary
    for an unset alert), the two keys and the args, whatever the alert is;
    when none is set, the payload alert is the alert as given. *)
Theorem localized_alert_iff_localization_field
  tok alert badge sound category content_available action_loc_key loc_key loc_args
  extra mutable_content thread_id url_args :
  let payload := _apns_prepare tok alert badge sound category content_available
                   action_loc_key loc_key loc_args extra mutable_content thread_id
                   url_args in
  (truthy action_loc_key = true \/ truthy loc_key = true \/ truthy loc_args = true ->
   apns.alert payload =
     AlertLocalized {| body := if truthy alert then alert else PDict ∅;
                       body_localized_key := loc_key;
                       body_localized_args := loc_args;
                       action_localized_key := action_loc_key |}) /\
  (truthy action_loc_key = false /\ truthy loc_key = false /\ truthy loc_args = false ->
   apns.alert payload = AlertPlain alert).
Proof.
  unfold _apns_prepare. split.
  - intros H.
    assert (truthy action_loc_key || truthy loc_key || truthy loc_args = true) as Hor.
    { destruct H as [H|[H|H]]; rewrite H; by rewrite ?orb_true_r. }
    by rewrite Hor.
  - by intros (-> & -> & ->).
Qed.

Lemma localized_alert_iff_localization_field_witness :
  let build alert loc_key loc_args :=
    apns.alert (_apns_prepare (TStr "A") alert PNone PNone PNone (PBool false) PNone
                  loc_key loc_args (PDict ∅) (PBool false) PNone PNone) in
  build (PStr "hello") (PStr "GREETING") (PList [PStr "Ann"]) =
    AlertLocalized {| body := PStr "hello"; body_localized_key := PStr "GREETING";
                      body_localized_args := PList [PStr "Ann"];
                      action_localized_key := PNone |} /\
  build (PStr "hello") PNone (PList []) = AlertPlain (PStr "hello").
Proof.
  intros build. split.
  - apply (proj1 (localized_alert_iff_localization_field (TStr "A") (PStr "hello") PNone
                    PNone PNone (PBool false) PNone (PStr "GREETING") (PList [PStr "Ann"])
                    (PDict ∅) (PBool false) PNone PNone)).
    right; left. reflexivity.
  - apply (proj2 (localized_alert_iff_localization_field (TStr "A") (PStr "hello") PNone
                    PNone PNone (PBool false) PNone PNone (PList [])
                    (PDict ∅) (PBool false) PNone PNone)).
    repeat split.
Defined.

(** ** C6: token-based auth with a credential missing *)

(** The four credentials of token-based auth, in the order they are
    checked. *)
Lemma _check_auth_key_settings_missing E w :
  truthy (SETTINGS_get E "TEAM_ID" PNone) = false \/
  truthy (SETTINGS_get E "BUNDLE_ID" PNone) = false \/
  truthy (SETTINGS_get E "APNS_KEY_ID" PNone) = false \/
  truthy (SETTINGS_get E "APNS_KEY_FILEPATH" PNone) = false ->
  exists k, k ∈ ["TEAM_ID"; "BUNDLE_ID"; "APNS_KEY_ID"; "APNS_KEY_FILEPATH"] /\
            truthy (SETTINGS_get E k PNone) = false /\
            _check_auth_key_settings E w = (Raise (ImproperlyConfigured (need_to_set k)), w).
Proof.
  intros H. unfold _check_auth_key_settings, raise.
  destruct (truthy (SETTINGS_get E "TEAM_ID" PNone)) eqn:H1; simpl;
    [|exists "TEAM_ID"; repeat split; [repeat constructor|done]].
  destruct (truthy (SETTINGS_get E "BUNDLE_ID" PNone)) eqn:H2; simpl;
    [|exists "BUNDLE_ID"; repeat split; [repeat constructor|done]].
  destruct (truthy (SETTINGS_get E "APNS_KEY_ID" PNone)) eqn:H3; simpl;
    [|exists "APNS_KEY_ID"; repeat split; [repeat constructor|done]].
  destruct (truthy (SETTINGS_get E "APNS_KEY_FILEPATH" PNone)) eqn:H4; simpl;
    [|exists "APNS_KEY_FILEPATH"; repeat split; [repeat constructor|done]].
  destruct H as [H|[H|[H|H]]]; congruence.
Qed.

(** C6. With token-based auth selected and one of team id, bundle id, key id
    and key file path missing (absent, None or empty), a single send and a
    bulk send both raise ImproperlyConfigured naming a missing setting, and
    leave the world as it was: no client is constructed, nothing is sent,
    nothing is even printed. *)
Theorem token_auth_missing_credential_raises_first E w :
  truthy (SETTINGS_get E "USE_APNS_KEY" (PBool false)) = true ->
  truthy (SETTINGS_get E "TEAM_ID" PNone) = false \/
  truthy (SETTINGS_get E "BUNDLE_ID" PNone) = false \/
  truthy (SETTINGS_get E "APNS_KEY_ID" PNone) = false \/
  truthy (SETTINGS_get E "APNS_KEY_FILEPATH" PNone) = false ->
  exists k,
    truthy (SETTINGS_get E k PNone) = false /\
    (forall registration_id alert kwargs,
       apns_send_message E registration_id alert kwargs w =
         (Raise (ImproperlyConfigured (need_to_set k)), w)) /\
    (forall registration_ids alert kwargs,
       apns_send_bulk_message E registration_ids alert kwargs w =
         (Raise (ImproperlyConfigured (need_to_set k)), w)).
Proof.
  intros Hkey Hmissing.
  destruct (_check_auth_key_settings_missing E w Hmissing) as (k & _ & Hk & Hcheck).
  exists k. split; [done|]. split; intros.
  - unfold apns_send_message. rewrite Hkey. by rewrite (m_bind_Raise _ _ _ _ _ Hcheck).
  - unfold apns_send_bulk_message. rewrite Hkey. by rewrite (m_bind_Raise _ _ _ _ _ Hcheck).
Qed.

Lemma token_auth_missing_credential_raises_first_witness :
  let E := scenario.gateway scenario.key_settings (Return (PBool true)) in
  exists k,
    truthy (SETTINGS_get E k PNone) = false /\
    apns_send_message E "A" (PStr "hello") ∅ scenario.start =
      (Raise (ImproperlyConfigured (need_to_set k)), scenario.start) /\
    apns_send_bulk_message E ["A"; "B"] (PStr "hello") ∅ scenario.start =
      (Raise (ImproperlyConfigured (need_to_set k)), scenario.start).
Proof.
  intros E.
  destruct (token_auth_missing_credential_raises_first E scenario.start
              ltac:(vm_compute; reflexivity)
              ltac:(right; right; right; vm_compute; reflexivity))
    as (k & Hk & Hone & Hbulk).
  exists k. split; [exact Hk|]. split; [apply Hone | apply Hbulk].
Defined.

(** ** C8 and C9: what a single send returns *)

Lemma _check_auth_key_settings_frame E w :
  (_check_auth_key_settings E w).2 = w.
Proof. unfold _check_auth_key_settings, raise, m_ret. by repeat case_match. Qed.

(** The token-path transport: the answer of the client, with anything equal
    to True replaced by the string True, and its exception as it is. *)
Lemma _auth_key_apns_send_answer E registration_id alert kwargs w client w1 :
  key_client E w = (Return client, w1) ->
  (_auth_key_apns_send E registration_id alert kwargs w).1 =
    match key_send_message E client registration_id (<["alert" := alert]> kwargs) with
    | Return ret => Return (if py_eq_True ret then PStr "True" else ret)
    | Raise e => Raise e
    end.
Proof.
  intros Hclient. unfold _auth_key_apns_send.
  rewrite (m_bind_Return _ _ _ _ _ Hclient).
  unfold m_bind, external, m_ret.
  destruct (key_send_message _ _ _ _) as [ret|e]; [|done].
  by destruct (py_eq_True ret).
Qed.

(** C8 as the code has it. In a token-path single send, a return value of
    the client that compares equal to True (the boolean True, and the
    integer 1 as well) is replaced by the string True; a return value that
    does not compare equal to True is returned as it is. *)
Theorem token_send_normalizes_what_equals_True
  E registration_id alert kwargs w client w1 ret :
  key_client E w = (Return client, w1) ->
  key_send_message E client registration_id (<["alert" := alert]> kwargs) = Return ret ->
  let answer := (_auth_key_apns_send E registration_id alert kwargs w).1 in
  (ret = PBool true -> answer = Return (PStr "True")) /\
  (py_eq_True ret = true -> answer = Return (PStr "True")) /\
  (py_eq_True ret = false -> answer = Return ret).
Proof.
  intros Hclient Hret answer. subst answer.
  rewrite (_auth_key_apns_send_answer _ _ _ _ _ _ _ Hclient), Hret.
  repeat split.
  - by intros ->.
  - by intros ->.
  - by intros ->.
Qed.

Lemma token_send_normalizes_what_equals_True_witness :
  let outcomes := PDict {["A" := PStr "Success"]} in
  let client := {| team_id := PStr "TEAM"; bundle_id := PStr "com.example.app";
                   auth_key_id := PStr "KEY"; auth_key_filepath := PStr "AuthKey.p8";
                   key_use_sandbox := PBool true; force_proto := "h2" |} in
  (_auth_key_apns_send (scenario.gateway scenario.complete_key_settings (Return (PBool true)))
     "A" (PStr "hello") ∅ scenario.start).1 = Return (PStr "True") /\
  (_auth_key_apns_send (scenario.gateway scenario.complete_key_settings (Return outcomes))
     "A" (PStr "hello") ∅ scenario.start).1 = Return outcomes.
Proof.
  intros outcomes client. split.
  - apply (proj1 (token_send_normalizes_what_equals_True
                    (scenario.gateway scenario.complete_key_settings (Return (PBool true)))
                    "A" (PStr "hello") ∅ scenario.start client
                    (emit (EvKeyClient client) scenario.start) (PBool true)
                    ltac:(vm_compute; reflexivity) ltac:(vm_compute; reflexivity))).
    reflexivity.
  - apply (proj2 (proj2 (token_send_normalizes_what_equals_True
                    (scenario.gateway scenario.complete_key_settings (Return outcomes))
                    "A" (PStr "hello") ∅ scenario.start client
                    (emit (EvKeyClient client) scenario.start) outcomes
                    ltac:(vm_compute; reflexivity) ltac:(vm_compute; reflexivity)))).
    reflexivity.
Defined.

(** C8 as the spec states it fails: the integer 1 is a return value
    other than the boolean True, and the caller does not get it back. *)
Lemma token_send_changes_the_integer_one :
  let E := scenario.gateway scenario.complete_key_settings (Return (PInt 1)) in
  (forall client registration_id kwargs,
     key_send_message E client registration_id kwargs = Return (PInt 1)) /\
  (_auth_key_apns_send E "A" (PStr "hello") ∅ scenario.start).1 = Return (PStr "True") /\
  (apns_send_message E "A" (PStr "hello") ∅ scenario.start).1 = Return (PStr "True").
Proof. split; [intros; reflexivity|]. vm_compute. split; reflexivity. Qed.




(** ** C10: the admin test-send in bulk *)

(** One iteration of the bulk loop: one queryset-level send, then at most a
    print of the exception caught. *)
Lemma bulk_loop_sends_once E queryset d remaining ret errors w :
  exists r tail,
    admin.send_messages_loop E queryset true (d :: remaining) ret errors w
      = (r, (w ++ admin.EvQuerysetSend queryset "Test bulk notification" :: tail)%list) /\
    Forall (fun ev => admin.is_queryset_send ev = false /\
                      admin.is_device_send ev = false /\
                      admin.is_user_message ev = false) tail /\
    match r with
    | Return (ret', errors') =>
        (ret' = ret \/ exists v, ret' = (ret ++ [v])%list) /\
        (tail = [] /\ errors' = errors \/ exists e, errors' = (errors ++ [e])%list)
    | Raise _ => tail = []
    end.
Proof.
  simpl. unfold m_bind, try_except, admin.external, admin.print, m_ret.
  destruct (admin.queryset_send_message E queryset "Test bulk notification") as [v|e].
  - eexists _, []. split; [reflexivity|]. split; [constructor|].
    split; [destruct (truthy v); eauto|eauto].
  - destruct e; simpl;
      try (eexists _, []; split; [reflexivity|]; split; [constructor|done]);
      (eexists _, [_]; split; [by rewrite <- app_assoc|];
       split; [by repeat constructor|]; eauto).
Qed.

Lemma count_app p (l1 l2 : list admin.Event) :
  admin.count p (l1 ++ l2) = admin.count p l1 + admin.count p l2.
Proof. unfold admin.count. by rewrite List.filter_app, length_app. Qed.

Lemma count_cons p ev (l : list admin.Event) :
  admin.count p (ev :: l) = (if p ev then 1 else 0) + admin.count p l.
Proof. unfold admin.count. simpl. by destruct (p ev). Qed.

Lemma count_none p (l : list admin.Event) :
  Forall (fun ev => p ev = false) l -> admin.count p l = 0.
Proof.
  unfold admin.count. induction 1 as [|ev l Hev _ IH]; [done|].
  simpl. by rewrite Hev.
Qed.

(** C10. The admin test-send with bulk=True issues, for a queryset that is
    not empty, exactly one queryset-level send and no per-device send,
    whatever that send answers; for an empty queryset it returns with the
    log as it was: no send, no message to the user. *)
Theorem bulk_test_send_sends_once E w :
  (forall d queryset,
     let w' := (admin.send_messages E (d :: queryset) true w).2 in
     exists added,
       w' = (w ++ added)%list /\
       admin.count admin.is_queryset_send added = 1 /\
       admin.count admin.is_device_send added = 0) /\
  admin.send_messages E [] true w = (Return tt, w).
Proof.
  split; [|done].
  intros d queryset.
  destruct (bulk_loop_sends_once E (d :: queryset) d queryset [] [] w)
    as (r & tail & Hloop & Htail & Hr).
  assert (admin.count admin.is_queryset_send tail = 0) as Hq
    by (apply count_none; eapply Forall_impl; [exact Htail|by intros ? (? & ? & ?)]).
  assert (admin.count admin.is_device_send tail = 0) as Hd
    by (apply count_none; eapply Forall_impl; [exact Htail|by intros ? (? & ? & ?)]).
  unfold admin.send_messages. cbv zeta.
  unfold m_bind at 1. rewrite Hloop.
  destruct r as [[ret errors]|e]; simpl.
  - unfold m_bind, admin.message_user, admin.external, m_ret, lift.
    destruct errors as [|e errors], ret as [|v ret]; simpl;
      rewrite <- ?app_assoc; simpl;
      (eexists; split; [reflexivity|]);
      rewrite !count_cons, ?count_app, ?Hq, ?Hd; done.
  - eexists; split; [reflexivity|]. by rewrite !count_cons, ?Hq, ?Hd.
Qed.

Lemma bulk_test_send_sends_once_witness :
  exists added,
    (admin.send_messages scenario.admin_gateway ["A"; "B"; "C"] true []).2 = added /\
    admin.count admin.is_queryset_send added = 1 /\
    admin.count admin.is_device_send added = 0.
Proof.
  destruct (proj1 (bulk_test_send_sends_once scenario.admin_gateway []) "A" ["B"; "C"])
    as (added & Hlog & Hqueryset & Hdevice).
  exists added. split; [exact Hlog | by split].
Defined.

(** Without bulk, the same queryset gets one per-device send for each of its
    devices and no queryset-level send. *)
Lemma single_test_send_sends_to_each_device :
  let added := (admin.send_messages scenario.admin_gateway ["A"; "B"; "C"] false []).2 in
  admin.count admin.is_queryset_send added = 0 /\
  admin.count admin.is_device_send added = 3 /\
  admin.count admin.is_user_message added = 2.
Proof. vm_compute. done. Qed.

(** * Further properties of apns.py *)

(** ** The credentials check *)

(** [_check_auth_key_settings] passes exactly when the four credentials are
    all set; otherwise it raises ImproperlyConfigured naming the first one,
    in the order team id, bundle id, key id, key file path, that is not. *)
Theorem check_auth_key_settings_names_first_missing E w :
  let set k := truthy (SETTINGS_get E k PNone) in
  (set "TEAM_ID" = false ->
   _check_auth_key_settings E w = (Raise (ImproperlyConfigured (need_to_set "TEAM_ID")), w)) /\
  (set "TEAM_ID" = true -> set "BUNDLE_ID" = false ->
   _check_auth_key_settings E w = (Raise (ImproperlyConfigured (need_to_set "BUNDLE_ID")), w)) /\
  (set "TEAM_ID" = true -> set "BUNDLE_ID" = true -> set "APNS_KEY_ID" = false ->
   _check_auth_key_settings E w
     = (Raise (ImproperlyConfigured (need_to_set "APNS_KEY_ID")), w)) /\
  (set "TEAM_ID" = true -> set "BUNDLE_ID" = true -> set "APNS_KEY_ID" = true ->
   set "APNS_KEY_FILEPATH" = false ->
   _check_auth_key_settings E w
     = (Raise (ImproperlyConfigured (need_to_set "APNS_KEY_FILEPATH")), w)) /\
  (_check_auth_key_settings E w = (Return tt, w) <->
   set "TEAM_ID" = true /\ set "BUNDLE_ID" = true /\ set "APNS_KEY_ID" = true /\
   set "APNS_KEY_FILEPATH" = true).
Proof.
  intros set. subst set. unfold _check_auth_key_settings, raise, m_ret. cbv beta.
  destruct (truthy (SETTINGS_get E "TEAM_ID" PNone));
    destruct (truthy (SETTINGS_get E "BUNDLE_ID" PNone));
    destruct (truthy (SETTINGS_get E "APNS_KEY_ID" PNone));
    destruct (truthy (SETTINGS_get E "APNS_KEY_FILEPATH" PNone)); simpl;
    repeat split; try done; try (by intros (? & ? & ? & ?)).
Qed.

Lemma check_auth_key_settings_names_first_missing_witness :
  let E := scenario.gateway scenario.key_settings (Return (PBool true)) in
  _check_auth_key_settings E scenario.start
    = (Raise (ImproperlyConfigured (need_to_set "APNS_KEY_FILEPATH")), scenario.start) /\
  _check_auth_key_settings
    (scenario.gateway scenario.complete_key_settings (Return (PBool true))) scenario.start
    = (Return tt, scenario.start).
Proof.
  intros E. split.
  - apply (proj1 (proj2 (proj2 (proj2
             (check_auth_key_settings_names_first_missing E scenario.start)))));
      vm_compute; reflexivity.
  - apply (proj2 (proj2 (proj2 (proj2
             (check_auth_key_settings_names_first_missing
                (scenario.gateway scenario.complete_key_settings (Return (PBool true)))
                scenario.start))))).
    repeat split; vm_compute; reflexivity.
Defined.

(** ** The token path and the device table *)

Lemma _auth_key_apns_send_frame E registration_id alert kwargs w :
  devices (_auth_key_apns_send E registration_id alert kwargs w).2 = devices w.
Proof.
  unfold _auth_key_apns_send, key_client, m_bind, external, m_ret, emit. simpl.
  repeat case_match; by simplify_eq/=.
Qed.

Lemma _auth_key_apns_bulk_send_frame E registration_ids alert kwargs w :
  devices (_auth_key_apns_bulk_send E registration_ids alert kwargs w).2 = devices w.
Proof.
  unfold _auth_key_apns_bulk_send, key_client, m_bind, external, m_ret, emit. simpl.
  repeat case_match; by simplify_eq/=.
Qed.

Lemma token_single_frame E registration_id alert kwargs w :
  truthy (SETTINGS_get E "USE_APNS_KEY" (PBool false)) = true ->
  devices (apns_send_message E registration_id alert kwargs w).2 = devices w.
Proof.
  intros Hkey. unfold apns_send_message. rewrite Hkey.
  pose proof (_check_auth_key_settings_frame E w) as Hcheck.
  unfold m_bind at 1. destruct (_check_auth_key_settings E w) as [[[]|e] w0];
    simpl in Hcheck; subst; [|done].
  unfold print, external, m_bind. cbv beta iota.
  destruct (binds_twice _ _); [done|].
  apply (_auth_key_apns_send_frame E registration_id alert kwargs
           (emit (EvPrint "sending using APNS key") w)).
Qed.

Lemma token_bulk_frame E registration_ids alert kwargs w :
  truthy (SETTINGS_get E "USE_APNS_KEY" (PBool false)) = true ->
  devices (apns_send_bulk_message E registration_ids alert kwargs w).2 = devices w.
Proof.
  intros Hkey. unfold apns_send_bulk_message. rewrite Hkey.
  pose proof (_check_auth_key_settings_frame E w) as Hcheck.
  unfold m_bind at 1. destruct (_check_auth_key_settings E w) as [[[]|e] w0];
    simpl in Hcheck; subst; [|done].
  unfold print, external, m_bind. cbv beta iota.
  destruct (binds_twice _ _); [done|].
  apply (_auth_key_apns_bulk_send_frame E registration_ids alert kwargs
           (emit (EvPrint "sending using APNS key") w)).
Qed.

(** With token-based auth selected, neither a single send nor a bulk send
    ever writes to the device table, whatever the client answers or raises:
    a recipient the gateway reports as unregistered stays active. *)
Theorem token_path_never_deactivates E w :
  truthy (SETTINGS_get E "USE_APNS_KEY" (PBool false)) = true ->
  (forall registration_id alert kwargs,
     devices (apns_send_message E registration_id alert kwargs w).2 = devices w) /\
  (forall registration_ids alert kwargs,
     devices (apns_send_bulk_message E registration_ids alert kwargs w).2 = devices w).
Proof.
  intros Hkey. split; intros.
  - by apply token_single_frame.
  - by apply token_bulk_frame.
Qed.

Lemma token_path_never_deactivates_witness :
  let E := scenario.gateway scenario.complete_key_settings
             (Return (PDict {["B" := PStr "Unregistered"]})) in
  let kwargs : gmap string pyval := ∅ in
  let run := apns_send_bulk_message E ["A"; "B"] (PStr "hello") kwargs scenario.start in
  run.1 = Return (PDict {["B" := PStr "Unregistered"]}) /\
  active <$> devices run.2 !! "B" = Some true.
Proof.
  intros E kwargs run. split; [vm_compute; reflexivity|].
  subst run.
  rewrite (proj2 (token_path_never_deactivates E scenario.start
                    ltac:(vm_compute; reflexivity))).
  vm_compute; reflexivity.
Defined.

(** A token-path bulk send hands the caller the answer of the client as it
    is, a returned True included (only a single send turns that into the
    string True), and raises what the client raises; the client is called
    once, with the recipients and the caller's keywords plus the alert. *)
Theorem token_bulk_send_passes_answer_through
  E registration_ids alert kwargs w client w1 :
  truthy (SETTINGS_get E "USE_APNS_KEY" (PBool false)) = true ->
  (_check_auth_key_settings E w).1 = Return tt ->
  binds_twice ["registration_ids"; "alert"] kwargs = false ->
  key_client E (emit (EvPrint "sending using APNS key") w) = (Return client, w1) ->
  apns_send_bulk_message E registration_ids alert kwargs w =
    (key_send_bulk_message E client registration_ids (<["alert" := alert]> kwargs),
     emit (EvKeySendBulkMessage client registration_ids (<["alert" := alert]> kwargs)) w1).
Proof.
  intros Hkey Hcheck Htwice Hclient.
  pose proof (_check_auth_key_settings_frame E w) as Hframe.
  destruct (_check_auth_key_settings E w) as [r w0] eqn:Hrun.
  simpl in Hcheck, Hframe. subst.
  unfold apns_send_bulk_message. rewrite Hkey, Htwice.
  rewrite (m_bind_Return _ _ _ _ _ Hrun).
  unfold print, external, m_bind. cbv beta iota.
  unfold _auth_key_apns_bulk_send.
  by rewrite (m_bind_Return _ _ _ _ _ Hclient).
Qed.

Lemma token_bulk_send_passes_answer_through_witness :
  let E := scenario.gateway scenario.complete_key_settings (Return (PBool true)) in
  let kwargs : gmap string pyval := ∅ in
  (apns_send_bulk_message E ["A"; "B"] (PStr "hello") kwargs scenario.start).1
    = Return (PBool true) /\
  (apns_send_message E "A" (PStr "hello") kwargs scenario.start).1 = Return (PStr "True").
Proof.
  intros E kwargs.
  pose (client := {| team_id := PStr "TEAM"; bundle_id := PStr "com.example.app";
                     auth_key_id := PStr "KEY"; auth_key_filepath := PStr "AuthKey.p8";
                     key_use_sandbox := PBool true; force_proto := "h2" |}).
  pose (w1 := emit (EvKeyClient client) (emit (EvPrint "sending using APNS key") scenario.start)).
  assert (Hkey : truthy (SETTINGS_get E "USE_APNS_KEY" (PBool false)) = true)
    by (vm_compute; reflexivity).
  assert (Hcheck : (_check_auth_key_settings E scenario.start).1 = Return tt)
    by (vm_compute; reflexivity).
  assert (Htwice : binds_twice ["registration_ids"; "alert"] kwargs = false)
    by (vm_compute; reflexivity).
  assert (Hclient : key_client E (emit (EvPrint "sending using APNS key") scenario.start)
                    = (Return client, w1))
    by (vm_compute; reflexivity).
  split; [|vm_compute; reflexivity].
  by rewrite (token_bulk_send_passes_answer_through E ["A"; "B"] (PStr "hello") kwargs
                scenario.start client w1 Hkey Hcheck Htwice Hclient).
Defined.

(** ** Exceptions on the certificate path *)

(** A single send lets every exception that is no gateway exception through
    as it is (an unsupported priority, a TypeError for a keyword, whatever
    the client raises outside the APNsException classes), and does not touch
    the device table for it. *)
Theorem single_send_lets_other_exceptions_through
  E registration_id alert kwargs w e w1 :
  truthy (SETTINGS_get E "USE_APNS_KEY" (PBool false)) = false ->
  call__apns_send E registration_id alert kwargs w = (Raise e, w1) ->
  (forall cls, e <> APNsException cls) ->
  apns_send_message E registration_id alert kwargs w = (Raise e, w1) /\
  devices w1 = devices w.
Proof.
  intros Hcert Hsend Hother.
  pose proof (call__apns_send_frame E registration_id alert kwargs w) as Hdev.
  rewrite Hsend in Hdev. split; [|done].
  unfold apns_send_message. rewrite Hcert. unfold try_except.
  rewrite (m_bind_Raise _ _ _ _ _ Hsend).
  destruct e; try done. by destruct (Hother cls).
Qed.

Lemma single_send_lets_other_exceptions_through_witness :
  let E := scenario.gateway scenario.certificate_settings (Return PNone) in
  let kwargs : gmap string pyval := {["priority" := PInt 7]} in
  let run := apns_send_message E "B" (PStr "hello") kwargs scenario.start in
  run.1 = Raise (APNSUnsupportedPriority "Unsupported priority 7") /\
  devices run.2 = devices scenario.start.
Proof.
  intros E kwargs run.
  assert (Hcert : truthy (SETTINGS_get E "USE_APNS_KEY" (PBool false)) = false)
    by (vm_compute; reflexivity).
  assert (Hsend : call__apns_send E "B" (PStr "hello") kwargs scenario.start
                  = (Raise (APNSUnsupportedPriority "Unsupported priority 7"),
                     (call__apns_send E "B" (PStr "hello") kwargs scenario.start).2))
    by (vm_compute; reflexivity).
  destruct (single_send_lets_other_exceptions_through E "B" (PStr "hello") kwargs
              scenario.start _ _ Hcert Hsend ltac:(discriminate)) as [Hrun Hdev].
  subst run. rewrite Hrun. by split.
Defined.

(** A bulk send has no except clause: an exception raised by the transport
    call, a gateway exception included, reaches the caller as it is (it is
    not turned into APNSServerError as in a single send), and no device is
    deactivated. *)
Theorem bulk_send_lets_every_exception_through
  E registration_ids alert kwargs w e w1 :
  truthy (SETTINGS_get E "USE_APNS_KEY" (PBool false)) = false ->
  call__apns_send_batch E registration_ids alert kwargs w = (Raise e, w1) ->
  apns_send_bulk_message E registration_ids alert kwargs w = (Raise e, w1) /\
  devices w1 = devices w.
Proof.
  intros Hcert Hsend.
  pose proof (call__apns_send_batch_frame E registration_ids alert kwargs w) as Hdev.
  rewrite Hsend in Hdev. split; [|done].
  unfold apns_send_bulk_message. rewrite Hcert.
  by rewrite (m_bind_Raise _ _ _ _ _ Hsend).
Qed.

Lemma bulk_send_lets_every_exception_through_witness :
  let kwargs : gmap string pyval := ∅ in
  (apns_send_bulk_message cases.offline ["A"; "B"] (PStr "hello") kwargs scenario.start).1
    = Raise (APNsException "ConnectionFailed") /\
  (apns_send_message cases.offline "A" (PStr "hello") kwargs scenario.start).1
    = Raise (APNSServerError "ConnectionFailed").
Proof.
  intros kwargs.
  assert (Hcert : truthy (SETTINGS_get cases.offline "USE_APNS_KEY" (PBool false)) = false)
    by (vm_compute; reflexivity).
  assert (Hsend : call__apns_send_batch cases.offline ["A"; "B"] (PStr "hello") kwargs
                    scenario.start
                  = (Raise (APNsException "ConnectionFailed"),
                     (call__apns_send_batch cases.offline ["A"; "B"] (PStr "hello") kwargs
                        scenario.start).2))
    by (vm_compute; reflexivity).
  split; [|vm_compute; reflexivity].
  by rewrite (proj1 (bulk_send_lets_every_exception_through cases.offline ["A"; "B"]
                       (PStr "hello") kwargs scenario.start _ _ Hcert Hsend)).
Defined.

(** ** What a send can do to the device table *)

(** A single send, on either path and whatever happens, leaves every row of
    the device table but the recipient's as it was, and leaves the
    recipient's row as it was or sets its active flag to false: it adds no
    row, deletes none, and never activates a device. *)
Theorem single_send_only_deactivates_its_recipient E registration_id alert kwargs w :
  let w' := (apns_send_message E registration_id alert kwargs w).2 in
  (forall rid, rid <> registration_id -> devices w' !! rid = devices w !! rid) /\
  (devices w' !! registration_id = devices w !! registration_id \/
   exists d, devices w !! registration_id = Some d /\
             devices w' !! registration_id = Some (set_active false d)).
Proof.
  cbv zeta.
  destruct (truthy (SETTINGS_get E "USE_APNS_KEY" (PBool false))) eqn:Hkey.
  { rewrite (token_single_frame _ _ _ _ _ Hkey). by split; [|left]. }
  pose proof (call__apns_send_frame E registration_id alert kwargs w) as Hdev.
  unfold apns_send_message. rewrite Hkey. unfold try_except.
  destruct (call__apns_send E registration_id alert kwargs w) as [[v|e] w1] eqn:Hsend;
    simpl in Hdev.
  { rewrite (m_bind_Return _ _ _ _ _ Hsend). simpl. rewrite Hdev. by split; [|left]. }
  rewrite (m_bind_Raise _ _ _ _ _ Hsend).
  destruct e; simpl; rewrite ?Hdev; try (by split; [|left]).
  destruct (isinstance_Unregistered E cls).
  - unfold m_bind, objects_get, device_save, raise. rewrite Hdev.
    destruct (devices w !! registration_id) as [d|] eqn:Hd; simpl.
    + rewrite ?Hdev. split.
      * intros rid Hne. by rewrite lookup_insert_ne.
      * right. exists d. by rewrite lookup_insert_eq.
    + rewrite ?Hdev. by split; [|left].
  - unfold m_bind, m_ret, raise. simpl. rewrite Hdev. by split; [|left].
Qed.

(** A bulk send, on either path and whatever happens, leaves each row of the
    device table as it was or sets its active flag to false: it adds no row,
    deletes none, and never activates a device. *)
Theorem bulk_send_never_reactivates E registration_ids alert kwargs w :
  let w' := (apns_send_bulk_message E registration_ids alert kwargs w).2 in
  forall rid,
    devices w' !! rid = devices w !! rid \/
    exists d, devices w !! rid = Some d /\ devices w' !! rid = Some (set_active false d).
Proof.
  cbv zeta. intros rid.
  destruct (truthy (SETTINGS_get E "USE_APNS_KEY" (PBool false))) eqn:Hkey.
  { rewrite (token_bulk_frame _ _ _ _ _ Hkey). by left. }
  pose proof (call__apns_send_batch_frame E registration_ids alert kwargs w) as Hdev.
  unfold apns_send_bulk_message. rewrite Hkey.
  destruct (call__apns_send_batch E registration_ids alert kwargs w) as [[v|e] w1] eqn:Hsend;
    simpl in Hdev.
  2:{ rewrite (m_bind_Raise _ _ _ _ _ Hsend). simpl. rewrite Hdev. by left. }
  rewrite (m_bind_Return _ _ _ _ _ Hsend).
  unfold m_bind, lift, items, objects_filter_in_update_active, m_ret.
  destruct v; simpl; rewrite ?Hdev; try (by left).
  rewrite map_lookup_imap.
  destruct (devices w !! rid) as [dev|]; simpl; [|by left].
  case_bool_decide; [right; by exists dev|by left].
Qed.

(** ** The certificate-path transport call *)

(** When the socket cannot be created, only the construction of the client
    and perhaps its connection were attempted. *)
Lemma _apns_create_socket_fails E certfile w e w1 :
  _apns_create_socket E certfile w = (Raise e, w1) ->
  exists evs, log w1 = (log w ++ evs)%list /\ List.filter is_send evs = [].
Proof.
  unfold _apns_create_socket, m_bind, external, m_ret, emit. simpl.
  repeat case_match; intros; simplify_eq/=.
  - exists [EvAPNsClient
              {| certfile := py_or certfile (SETTINGS_get E "APNS_CERTIFICATE" PNone);
                 use_sandbox := SETTINGS_get E "APNS_USE_SANDBOX" PNone;
                 use_alternative_port := SETTINGS_get E "APNS_USE_ALTERNATIVE_PORT" PNone |};
            EvConnect
              {| certfile := py_or certfile (SETTINGS_get E "APNS_CERTIFICATE" PNone);
                 use_sandbox := SETTINGS_get E "APNS_USE_SANDBOX" PNone;
                 use_alternative_port := SETTINGS_get E "APNS_USE_ALTERNATIVE_PORT" PNone |}].
    by rewrite <- app_assoc.
  - by eexists [_].
Qed.

(** If constructing or connecting the client raises, [_apns_send] raises
    that exception and sends nothing, whatever the priority and the other
    keywords are: they are not looked at. *)
Theorem connection_failure_ends_the_send E registration_id alert batch kwargs w e w1 :
  _apns_create_socket E (dict_get "certfile" PNone kwargs) w = (Raise e, w1) ->
  _apns_send E registration_id alert batch kwargs w = (Raise e, w1) /\
  List.filter is_send (new_events w w1) = [].
Proof.
  intros Hsock.
  destruct (_apns_create_socket_fails _ _ _ _ _ Hsock) as (evs & Hlog & Hnone).
  rewrite (new_events_app _ _ _ Hlog). split; [|done].
  unfold _apns_send, dict_pop. unfold dict_get in Hsock.
  by rewrite (m_bind_Raise _ _ _ _ _ Hsock).
Qed.

Lemma connection_failure_ends_the_send_witness :
  let kwargs : gmap string pyval :=
    {["priority" := PStr "urgent-but-unknown"; "colour" := PStr "red"]} in
  let run := _apns_send cases.offline (TStr "A") (PStr "hello") (PBool false) kwargs
               scenario.start in
  run.1 = Raise (APNsException "ConnectionFailed") /\
  List.filter is_send (new_events scenario.start run.2) = [].
Proof.
  intros kwargs run.
  assert (Hsock : _apns_create_socket cases.offline (dict_get "certfile" PNone kwargs)
                    scenario.start
                  = (Raise (APNsException "ConnectionFailed"),
                     (_apns_create_socket cases.offline (dict_get "certfile" PNone kwargs)
                        scenario.start).2))
    by (vm_compute; reflexivity).
  destruct (connection_failure_ends_the_send cases.offline (TStr "A") (PStr "hello")
              (PBool false) kwargs scenario.start _ _ Hsock) as [Hrun Hnone].
  subst run. rewrite Hrun. by split.
Defined.

(** The priority every send of one [_apns_send] run goes out with. *)
Lemma _apns_send_priority E registration_id alert batch kwargs w :
  exists evs,
    log (_apns_send E registration_id alert batch kwargs w).2 = (log w ++ evs)%list /\
    forall nk, nk ∈ omap sent_kwargs evs ->
      if truthy (dict_get "priority" PNone kwargs)
      then priority nk = Some (py_str (str_other E) (dict_get "priority" PNone kwargs)) /\
           py_str (str_other E) (dict_get "priority" PNone kwargs)
             ∈ NotificationPriority_values E
      else priority nk = None.
Proof.
  unfold _apns_send, _apns_create_socket, NotificationPriority, dict_pop, dict_get, m_bind,
    external, lift, m_ret, raise, emit.
  rewrite (lookup_delete_ne _ "expiration" "priority") by done.
  rewrite (lookup_delete_ne kwargs "certfile" "priority") by done.
  simpl.
  repeat case_match; simplify_eq/=; rewrite <- ?app_assoc;
    (eexists; split; [reflexivity|]); intros nk' Hnk; simpl in Hnk;
    repeat (apply elem_of_cons in Hnk as [->|Hnk]); try (by inversion Hnk);
    simpl; try done;
    (split; [done|]); by eapply bool_decide_eq_true_1.
Qed.

(** A notification never goes out with a priority outside the enum: every
    send call carries the enum member whose value is the text of the
    priority supplied, and carries no priority at all when none is supplied
    or the one supplied is unset (None, 0, empty). *)
Theorem sent_priority_is_an_enum_member E registration_id alert batch kwargs w nk :
  nk ∈ omap sent_kwargs
         (new_events w (_apns_send E registration_id alert batch kwargs w).2) ->
  (kwargs !! "priority" = None -> priority nk = None) /\
  (forall p, kwargs !! "priority" = Some p ->
     (truthy p = false -> priority nk = None) /\
     (truthy p = true ->
      priority nk = Some (py_str (str_other E) p) /\
      py_str (str_other E) p ∈ NotificationPriority_values E)).
Proof.
  intros Hin.
  destruct (_apns_send_priority E registration_id alert batch kwargs w)
    as (evs & Hlog & Hprio).
  rewrite (new_events_app _ _ _ Hlog) in Hin.
  specialize (Hprio nk Hin). unfold dict_get in Hprio.
  split.
  - intros Hnone. by rewrite Hnone in Hprio.
  - intros p Hsome. rewrite Hsome in Hprio. simpl in Hprio.
    split; intros Hp; by rewrite Hp in Hprio.
Qed.

Lemma sent_priority_is_an_enum_member_witness :
  let E := scenario.gateway scenario.certificate_settings (Return PNone) in
  let kwargs : gmap string pyval := {["priority" := PInt 10]} in
  let nk := {| expiration := PInt 1702592000; priority := Some "10" |} in
  nk ∈ omap sent_kwargs
         (new_events scenario.start
            (_apns_send E (TStr "A") (PStr "hello") (PBool false) kwargs scenario.start).2) /\
  priority nk = Some (py_str (str_other E) (PInt 10)).
Proof.
  intros E kwargs nk.
  assert (Hin : nk ∈ omap sent_kwargs
            (new_events scenario.start
               (_apns_send E (TStr "A") (PStr "hello") (PBool false) kwargs
                  scenario.start).2))
    by (vm_compute; apply list_elem_of_here).
  split; [exact Hin|].
  apply (proj2 (sent_priority_is_an_enum_member _ _ _ _ _ _ _ Hin) (PInt 10));
    vm_compute; reflexivity.
Defined.

(** Every run of [_apns_send] starts by constructing one client, and
    constructs no other. *)
Lemma _apns_send_client E registration_id alert batch kwargs w :
  exists rest,
    log (_apns_send E registration_id alert batch kwargs w).2 =
      (log w ++
       EvAPNsClient
         {| certfile := py_or (dict_get "certfile" PNone kwargs)
                          (SETTINGS_get E "APNS_CERTIFICATE" PNone);
            use_sandbox := SETTINGS_get E "APNS_USE_SANDBOX" PNone;
            use_alternative_port := SETTINGS_get E "APNS_USE_ALTERNATIVE_PORT" PNone |}
       :: rest)%list /\
    Forall (fun ev => match ev with EvAPNsClient _ => False | _ => True end) rest.
Proof.
  unfold _apns_send, _apns_create_socket, dict_pop, dict_get, m_bind, external, lift,
    m_ret, raise, emit.
  simpl.
  repeat case_match; simplify_eq/=; rewrite <- ?app_assoc; simpl;
    (eexists; split; [reflexivity|]); by repeat constructor.
Qed.

(** Each certificate-path transport call builds a session of its own: one
    client is constructed, first of all, and no second one.  Its certificate
    is the certfile keyword when that is set, and the configured
    APNS_CERTIFICATE when the keyword is absent or unset; sandbox and
    alternative port are the configured ones. *)
Theorem one_client_per_send_with_certificate_override
  E registration_id alert batch kwargs w :
  exists c rest,
    new_events w (_apns_send E registration_id alert batch kwargs w).2
      = EvAPNsClient c :: rest /\
    Forall (fun ev => match ev with EvAPNsClient _ => False | _ => True end) rest /\
    (forall v, kwargs !! "certfile" = Some v -> truthy v = true -> certfile c = v) /\
    (kwargs !! "certfile" = None \/
     (exists v, kwargs !! "certfile" = Some v /\ truthy v = false) ->
     certfile c = SETTINGS_get E "APNS_CERTIFICATE" PNone) /\
    use_sandbox c = SETTINGS_get E "APNS_USE_SANDBOX" PNone /\
    use_alternative_port c = SETTINGS_get E "APNS_USE_ALTERNATIVE_PORT" PNone.
Proof.
  destruct (_apns_send_client E registration_id alert batch kwargs w) as (rest & Hlog & Hrest).
  rewrite (new_events_app _ _ _ Hlog).
  eexists _, rest. split; [reflexivity|]. split; [done|]. simpl.
  unfold py_or, dict_get. repeat split.
  - intros v -> Hv. simpl. by rewrite Hv.
  - intros [->|(v & -> & Hv)]; simpl; [done|by rewrite Hv].
Qed.




(** ** The batch of a bulk send *)

(** The notifications the list comprehension of [_apns_send] builds: one per
    recipient, in order, each with the payload built for its own token. *)
Lemma batch_data_spec alert (kwargs : gmap string pyval) (l : list token) data :
  result_map (fun rid => result_bind (call__apns_prepare rid alert kwargs)
                           (fun p => Return {| notification_token := rid;
                                               notification_payload := p |})) l
    = Return data ->
  notification_token <$> data = l /\
  Forall (fun n => call__apns_prepare (notification_token n) alert kwargs
                   = Return (notification_payload n)) data.
Proof.
  revert data. induction l as [|rid l IH]; simpl; intros data Hmap.
  - inversion Hmap. by split.
  - destruct (call__apns_prepare rid alert kwargs) as [p|] eqn:Hp; simpl in Hmap; [|done].
    destruct (result_map _ l) as [ns|] eqn:Hrest; simpl in Hmap; [|done].
    inversion Hmap; subst. destruct (IH ns eq_refl) as [Htokens Hpayloads].
    split; [rewrite fmap_cons; cbn [notification_token]; by rewrite Htokens|].
    by constructor.
Qed.

(** The batch a run of [_apns_send] over a list of recipients sends. *)
Lemma _apns_send_batch_data E registration_ids alert kwargs w data topic nk :
  EvSendNotificationBatch data topic nk
    ∈ new_events w (_apns_send E (TList registration_ids) alert (PBool true) kwargs w).2 ->
  topic = SETTINGS_get E "APNS_TOPIC" PNone /\
  result_map (fun rid => result_bind
                (call__apns_prepare rid alert
                   (delete "priority" (delete "expiration" (delete "certfile" kwargs))))
                (fun p => Return {| notification_token := rid;
                                    notification_payload := p |}))
    (TStr <$> registration_ids) = Return data.
Proof.
  assert (exists evs,
    log (_apns_send E (TList registration_ids) alert (PBool true) kwargs w).2
      = (log w ++ evs)%list /\
    (EvSendNotificationBatch data topic nk ∈ evs ->
     topic = SETTINGS_get E "APNS_TOPIC" PNone /\
     result_map (fun rid => result_bind
                   (call__apns_prepare rid alert
                      (delete "priority" (delete "expiration" (delete "certfile" kwargs))))
                   (fun p => Return {| notification_token := rid;
                                       notification_payload := p |}))
       (TStr <$> registration_ids) = Return data)) as (evs & Hlog & Hevs).
  { unfold _apns_send, _apns_create_socket, dict_pop, m_bind, external, lift, m_ret,
      raise, emit, iterate.
    simpl.
    repeat case_match; simplify_eq/=; rewrite <- ?app_assoc;
      (eexists; split; [reflexivity|]); intros Hin;
      repeat (apply elem_of_cons in Hin as [Heq|Hin]; [try discriminate|]);
      try (by inversion Hin).
    all: by inversion Heq; subst. }
  intros Hin. rewrite (new_events_app _ _ _ Hlog) in Hin. by apply Hevs.
Qed.

Lemma new_events_same w : new_events w w = [].
Proof. unfold new_events. by rewrite drop_all. Qed.

(** On the certificate path a bulk send adds to the log what its transport
    call adds. *)
Lemma bulk_send_log E registration_ids alert kwargs w :
  truthy (SETTINGS_get E "USE_APNS_KEY" (PBool false)) = false ->
  log (apns_send_bulk_message E registration_ids alert kwargs w).2
    = log (call__apns_send_batch E registration_ids alert kwargs w).2.
Proof.
  intros Hcert. unfold apns_send_bulk_message. rewrite Hcert.
  unfold m_bind, lift, items, objects_filter_in_update_active, m_ret.
  destruct (call__apns_send_batch E registration_ids alert kwargs w) as [[v|e] w1];
    [|done].
  by destruct v.
Qed.

(** The batch of a certificate-path bulk send holds one notification per
    recipient, in the order given (none for an empty list, which is still
    sent as an empty batch), each carrying the payload built for its own
    token from the caller's keywords without certfile, expiration and
    priority; the topic is the configured APNS_TOPIC. *)
Theorem bulk_send_batch_has_one_notification_per_recipient
  E registration_ids alert kwargs w data topic nk :
  truthy (SETTINGS_get E "USE_APNS_KEY" (PBool false)) = false ->
  EvSendNotificationBatch data topic nk
    ∈ new_events w (apns_send_bulk_message E registration_ids alert kwargs w).2 ->
  notification_token <$> data = TStr <$> registration_ids /\
  Forall (fun n =>
            call__apns_prepare (notification_token n) alert
              (delete "priority" (delete "expiration" (delete "certfile" kwargs)))
            = Return (notification_payload n)) data /\
  topic = SETTINGS_get E "APNS_TOPIC" PNone.
Proof.
  intros Hcert Hin. unfold new_events in Hin.
  rewrite (bulk_send_log _ _ _ _ _ Hcert) in Hin. fold (new_events w
    (call__apns_send_batch E registration_ids alert kwargs w).2) in Hin.
  unfold call__apns_send_batch in Hin.
  destruct (binds_twice _ kwargs).
  { unfold raise in Hin. simpl in Hin. rewrite new_events_same in Hin. inversion Hin. }
  destruct (_apns_send_batch_data _ _ _ _ _ _ _ _ Hin) as [Htopic Hmap].
  destruct (batch_data_spec _ _ _ _ Hmap) as [Htokens Hpayloads].
  by repeat split.
Qed.

Lemma bulk_send_batch_has_one_notification_per_recipient_witness :
  let E := scenario.gateway scenario.certificate_settings (Return PNone) in
  let kwargs : gmap string pyval := {["sound" := PStr "chime"]} in
  let payload :=
    _apns_prepare (TStr "A") (PStr "hello") PNone (PStr "chime") PNone (PBool false) PNone
      PNone (PList []) (PDict ∅) (PBool false) PNone PNone in
  let data := [ {| notification_token := TStr "A"; notification_payload := payload |};
                {| notification_token := TStr "B"; notification_payload := payload |} ] in
  let nk := {| expiration := PInt 1702592000; priority := None |} in
  EvSendNotificationBatch data (PStr "com.example.app") nk
    ∈ new_events scenario.start
        (apns_send_bulk_message E ["A"; "B"] (PStr "hello") kwargs scenario.start).2 /\
  notification_token <$> data = [TStr "A"; TStr "B"].
Proof.
  intros E kwargs payload data nk.
  assert (Hin : EvSendNotificationBatch data (PStr "com.example.app") nk
            ∈ new_events scenario.start
                (apns_send_bulk_message E ["A"; "B"] (PStr "hello") kwargs
                   scenario.start).2)
    by (vm_compute; do 2 apply list_elem_of_further; apply list_elem_of_here).
  split; [exact Hin|].
  apply (bulk_send_batch_has_one_notification_per_recipient E ["A"; "B"] (PStr "hello")
           kwargs scenario.start data (PStr "com.example.app") nk).
  - vm_compute; reflexivity.
  - exact Hin.
Defined.

(** What the builder reads from the keywords is what the caller passed:
    popping certfile, expiration and priority does not change another key. *)
Lemma dict_get_popped k dflt (kwargs : gmap string pyval) :
  k ∉ ["certfile"; "expiration"; "priority"] ->
  dict_get k dflt (delete "priority" (delete "expiration" (delete "certfile" kwargs)))
  = dict_get k dflt kwargs.
Proof.
  intros Hk. unfold dict_get.
  apply not_elem_of_cons in Hk as [Hc Hk].
  apply not_elem_of_cons in Hk as [He Hk].
  apply not_elem_of_cons in Hk as [Hp _].
  by rewrite !lookup_delete_ne.
Qed.

Lemma call__apns_prepare_plain_badge tok alert kwargs p :
  call__apns_prepare tok alert kwargs = Return p ->
  truthy (dict_get "action_loc_key" PNone kwargs) || truthy (dict_get "loc_key" PNone kwargs)
    || truthy (dict_get "loc_args" (PList []) kwargs) = false ->
  apns.badge p = if callable (dict_get "badge" PNone kwargs)
                 then py_call (dict_get "badge" PNone kwargs) tok
                 else dict_get "badge" PNone kwargs.
Proof.
  unfold call__apns_prepare. destruct (forallb _ _); [|done].
  intros Hp Hplain. inversion Hp; subst. by apply _apns_prepare_plain_badge.
Qed.

(** In a certificate-path bulk send with no localization field, a badge that
    is a function of the recipient is evaluated once per recipient: the
    badges of the batch, in order, are the values of the function at the
    tokens of the recipients. *)
Theorem bulk_send_evaluates_badge_per_recipient
  E registration_ids alert kwargs w data topic nk f :
  truthy (SETTINGS_get E "USE_APNS_KEY" (PBool false)) = false ->
  EvSendNotificationBatch data topic nk
    ∈ new_events w (apns_send_bulk_message E registration_ids alert kwargs w).2 ->
  kwargs !! "badge" = Some (PFun f) ->
  truthy (dict_get "action_loc_key" PNone kwargs) = false ->
  truthy (dict_get "loc_key" PNone kwargs) = false ->
  truthy (dict_get "loc_args" (PList []) kwargs) = false ->
  (fun n => apns.badge (notification_payload n)) <$> data
  = (fun rid => f (TStr rid)) <$> registration_ids.
Proof.
  intros Hcert Hin Hbadge Haction Hkey Hargs. unfold new_events in Hin.
  rewrite (bulk_send_log _ _ _ _ _ Hcert) in Hin. fold (new_events w
    (call__apns_send_batch E registration_ids alert kwargs w).2) in Hin.
  unfold call__apns_send_batch in Hin.
  destruct (binds_twice _ kwargs).
  { unfold raise in Hin. simpl in Hin. rewrite new_events_same in Hin. inversion Hin. }
  destruct (_apns_send_batch_data _ _ _ _ _ _ _ _ Hin) as [_ Hmap].
  destruct (batch_data_spec _ _ _ _ Hmap) as [Htokens Hpayloads].
  transitivity ((fun n => f (notification_token n)) <$> data).
  - apply Forall_fmap_ext. eapply Forall_impl; [exact Hpayloads|].
    intros n Hn. cbv beta in Hn.
    rewrite (call__apns_prepare_plain_badge _ _ _ _ Hn).
    + rewrite dict_get_popped by (by repeat (apply not_elem_of_cons; split; [|]);
                                    try apply not_elem_of_nil).
      unfold dict_get. by rewrite Hbadge.
    + rewrite !dict_get_popped by (by repeat (apply not_elem_of_cons; split; [|]);
                                     try apply not_elem_of_nil).
      by rewrite Haction, Hkey, Hargs.
  - change ((f ∘ notification_token) <$> data = (f ∘ TStr) <$> registration_ids).
    rewrite !list_fmap_compose. by rewrite Htokens.
Qed.

Lemma bulk_send_evaluates_badge_per_recipient_witness :
  let E := scenario.gateway scenario.certificate_settings (Return PNone) in
  let kwargs : gmap string pyval := {["badge" := PFun scenario.badge_of]} in
  let payload tok n :=
    {| notification_token := TStr tok;
       notification_payload :=
         _apns_prepare (TStr tok) (PStr "hello") (PInt n) PNone PNone (PBool false) PNone
           PNone (PList []) (PDict ∅) (PBool false) PNone PNone |} in
  let data := [payload "A" 1%Z; payload "BB" 2%Z] in
  let nk := {| expiration := PInt 1702592000; priority := None |} in
  EvSendNotificationBatch data (PStr "com.example.app") nk
    ∈ new_events scenario.start
        (apns_send_bulk_message E ["A"; "BB"] (PStr "hello") kwargs scenario.start).2 /\
  (fun n => apns.badge (notification_payload n)) <$> data = [PInt 1; PInt 2].
Proof.
  intros E kwargs payload data nk.
  assert (Hin : EvSendNotificationBatch data (PStr "com.example.app") nk
            ∈ new_events scenario.start
                (apns_send_bulk_message E ["A"; "BB"] (PStr "hello") kwargs
                   scenario.start).2)
    by (vm_compute; do 2 apply list_elem_of_further; apply list_elem_of_here).
  split; [exact Hin|].
  rewrite (bulk_send_evaluates_badge_per_recipient E ["A"; "BB"] (PStr "hello") kwargs
             scenario.start data (PStr "com.example.app") nk scenario.badge_of);
    try (vm_compute; reflexivity).
  exact Hin.
Defined.



(** * Further properties of admin.py *)

(** ** The per-device loop *)

Lemma device_sends_cons ev l :
  report.device_sends (ev :: l) =
    match ev with
    | admin.EvDeviceSend d _ => d :: report.device_sends l
    | _ => report.device_sends l
    end.
Proof. unfold report.device_sends. by destruct ev. Qed.

Lemma user_messages_cons ev l :
  report.user_messages (ev :: l) =
    match ev with
    | admin.EvMessageUser m => m :: report.user_messages l
    | _ => report.user_messages l
    end.
Proof. unfold report.user_messages. by destruct ev. Qed.

(** The loop over devices whose sends all return or raise an exception an
    except clause catches: every device gets its send, in order, and the
    lists [ret] and [errors] grow by the truthy results and by the texts of
    the failures. *)
Lemma single_loop_handled E queryset remaining ret errors w :
  Forall (fun d => report.handled
                     (admin.device_send_message E d "Test single notification") = true)
    remaining ->
  exists added,
    admin.send_messages_loop E queryset false remaining ret errors w =
      (Return ((ret ++ (remaining ≫= fun d =>
                  report.kept (admin.device_send_message E d "Test single notification")))%list,
               (errors ++ (remaining ≫= fun d =>
                  report.failed (admin.device_send_message E d "Test single notification")))%list),
       (w ++ added)%list) /\
    report.device_sends added = remaining /\
    report.user_messages added = [] /\
    admin.count admin.is_queryset_send added = 0.
Proof.
  revert ret errors w. induction remaining as [|d remaining IH]; intros ret errors w Hall.
  - exists []. simpl. unfold m_ret. by rewrite !app_nil_r.
  - apply Forall_cons in Hall as [Hd Hall].
    cbn [admin.send_messages_loop].
    unfold m_bind at 1. unfold try_except, m_bind at 1, admin.external.
    destruct (admin.device_send_message E d "Test single notification") as [v|e] eqn:Hsend.
    + cbn [report.kept report.failed].
      destruct (IH (if truthy v then (ret ++ [v])%list else ret) errors
                  (w ++ [admin.EvDeviceSend d "Test single notification"])%list Hall)
        as (added & Hloop & Hsends & Hmsgs & Hq).
      exists (admin.EvDeviceSend d "Test single notification" :: added).
      unfold m_ret at 1. cbv beta iota. rewrite Hloop.
      split; [|rewrite !device_sends_cons, !user_messages_cons, !count_cons;
               cbn [admin.is_queryset_send]; by rewrite Hq, Hsends, Hmsgs].
      rewrite <- !app_assoc. cbn [mbind list_bind app]. rewrite Hsend.
      cbn [report.kept report.failed app].
      destruct (truthy v); by rewrite <- ?app_assoc.
    + simpl in Hd. destruct (report.caught e) as [text|] eqn:Hcaught; [|done].
      destruct (IH ret (errors ++ [text])%list
                  (w ++ [admin.EvDeviceSend d "Test single notification"; admin.EvPrint e])%list
                  Hall)
        as (added & Hloop & Hsends & Hmsgs & Hq).
      exists (admin.EvDeviceSend d "Test single notification" :: admin.EvPrint e :: added).
      split; [|rewrite !device_sends_cons, !user_messages_cons, !count_cons;
               cbn [admin.is_queryset_send]; by rewrite Hq, Hsends, Hmsgs].
      assert (Hfailed : report.failed (Raise e) = [text])
        by (cbn [report.failed]; by rewrite Hcaught).
      cbn [mbind list_bind app]. rewrite Hsend, Hfailed. cbn [report.kept app].
      destruct e; simpl in Hcaught; simplify_eq;
        unfold admin.print, admin.external, m_bind, m_ret; cbv beta iota;
        rewrite <- !app_assoc; cbn [app]; rewrite Hloop;
        by rewrite <- ?app_assoc.
Qed.

Lemma device_sends_app l1 l2 :
  report.device_sends (l1 ++ l2) = (report.device_sends l1 ++ report.device_sends l2)%list.
Proof. unfold report.device_sends. apply omap_app. Qed.

Lemma user_messages_app l1 l2 :
  report.user_messages (l1 ++ l2) = (report.user_messages l1 ++ report.user_messages l2)%list.
Proof. unfold report.user_messages. apply omap_app. Qed.

(** Without bulk, when the send to each device returns or raises an
    exception the action catches (GCMError, APNSServerError, a key-client
    APNsException), every device of the queryset gets exactly one send, in
    the order of the queryset, and no queryset-level send is made: a failure
    for one device does not keep the later devices from their send. *)
Theorem test_send_reaches_every_device E queryset w :
  Forall (fun d => report.handled
                     (admin.device_send_message E d "Test single notification") = true)
    queryset ->
  exists added,
    (admin.send_messages E queryset false w).2 = (w ++ added)%list /\
    report.device_sends added = queryset /\
    admin.count admin.is_queryset_send added = 0.
Proof.
  intros Hall.
  destruct (single_loop_handled E queryset queryset [] [] w Hall)
    as (added & Hloop & Hsends & _ & Hq).
  simpl in Hloop.
  unfold admin.send_messages. unfold m_bind at 1. rewrite Hloop. cbv beta iota zeta.
  generalize (queryset ≫= fun d =>
                report.kept (admin.device_send_message E d "Test single notification"))
             (queryset ≫= fun d =>
                report.failed (admin.device_send_message E d "Test single notification")).
  intros ret errors.
  unfold m_bind, admin.message_user, admin.external, m_ret, lift, admin.join.
  destruct errors as [|e errors], ret as [|v ret]; cbn [negb app];
    try destruct (admin.strings_of _); cbn [result_bind];
    rewrite <- ?app_assoc; (eexists; split; [reflexivity|]);
    rewrite ?device_sends_app, ?count_app, Hsends, Hq; by rewrite ?app_nil_r.
Qed.

Lemma test_send_reaches_every_device_witness :
  exists added,
    (admin.send_messages scenario.admin_gateway ["A"; "B"; "C"] false []).2 = added /\
    report.device_sends added = ["A"; "B"; "C"].
Proof.
  destruct (test_send_reaches_every_device scenario.admin_gateway ["A"; "B"; "C"] [])
    as (added & Hlog & Hsends & _).
  - repeat constructor.
  - exists added. split; [exact Hlog | exact Hsends].
Defined.

(** What the user is told after a test send without bulk whose sends all
    return or raise an exception the action catches, and whose truthy results
    are all strings: one ERROR message with the texts of the failures joined
    by commas when there was a failure, then one message with the truthy
    results joined by commas when there was one, saying All when nothing
    failed and Some otherwise.  Results that are falsy (a send that returns
    None) are not reported at all. *)
Theorem test_send_report E queryset w results :
  Forall (fun d => report.handled
                     (admin.device_send_message E d "Test single notification") = true)
    queryset ->
  let ret := queryset ≫= fun d =>
               report.kept (admin.device_send_message E d "Test single notification") in
  let errors := queryset ≫= fun d =>
                  report.failed (admin.device_send_message E d "Test single notification") in
  admin.strings_of ret = Return results ->
  exists added,
    admin.send_messages E queryset false w = (Return tt, (w ++ added)%list) /\
    report.user_messages added =
      ((match errors with [] => [] | _ :: _ => [report.error_message errors] end) ++
       (match ret with
        | [] => []
        | _ :: _ => [report.success_message (match errors with [] => true | _ => false end)
                       (PStr (String.concat ", " results))]
        end))%list.
Proof.
  intros Hall ret errors Hstrings.
  destruct (single_loop_handled E queryset queryset [] [] w Hall)
    as (added & Hloop & _ & Hmsgs & _).
  simpl in Hloop. fold ret errors in Hloop.
  unfold admin.send_messages. unfold m_bind at 1. rewrite Hloop. cbv beta iota zeta.
  unfold m_bind, admin.message_user, admin.external, m_ret, lift, admin.join.
  rewrite Hstrings. cbn [result_bind negb].
  destruct errors as [|e errors'], ret as [|v ret']; cbn [app];
    rewrite <- ?app_assoc; (eexists; split; [reflexivity|]);
    rewrite ?user_messages_app, Hmsgs; reflexivity.
Qed.

Lemma test_send_report_witness :
  exists added,
    admin.send_messages scenario.admin_gateway ["A"; "B"; "C"] false []
      = (Return tt, added) /\
    report.user_messages added =
      [report.error_message ["Unregistered"; "BadDeviceToken"];
       report.success_message false (PStr "sent")].
Proof.
  destruct (test_send_report scenario.admin_gateway ["A"; "B"; "C"] [] ["sent"])
    as (added & Hrun & Hmsgs).
  - repeat constructor.
  - reflexivity.
  - exists added. split; [exact Hrun | exact Hmsgs].
Defined.

(** The loop up to the first device whose send raises an exception no
    except clause catches. *)
Lemma single_loop_uncaught E queryset pre d post ret errors w e :
  Forall (fun d => report.handled
                     (admin.device_send_message E d "Test single notification") = true)
    pre ->
  admin.device_send_message E d "Test single notification" = Raise e ->
  report.caught e = None ->
  exists added,
    admin.send_messages_loop E queryset false (pre ++ d :: post) ret errors w
      = (Raise e, (w ++ added)%list) /\
    report.device_sends added = (pre ++ [d])%list /\
    report.user_messages added = [].
Proof.
  intros Hall Hsend Hcaught. revert ret errors w.
  induction pre as [|d0 pre IH]; intros ret errors w.
  - exists [admin.EvDeviceSend d "Test single notification"]. split; [|done].
    cbn [app admin.send_messages_loop].
    unfold m_bind at 1. unfold try_except, m_bind at 1, admin.external.
    rewrite Hsend. by destruct e.
  - apply Forall_cons in Hall as [Hd0 Hall]. specialize (IH Hall).
    cbn [app admin.send_messages_loop].
    unfold m_bind at 1. unfold try_except, m_bind at 1, admin.external.
    destruct (admin.device_send_message E d0 "Test single notification") as [v|e0].
    + destruct (IH (if truthy v then (ret ++ [v])%list else ret) errors
                  (w ++ [admin.EvDeviceSend d0 "Test single notification"])%list)
        as (added & Hloop & Hsends & Hmsgs).
      exists (admin.EvDeviceSend d0 "Test single notification" :: added).
      unfold m_ret at 1. cbv beta iota. rewrite Hloop, <- app_assoc.
      split; [done|].
      by rewrite device_sends_cons, user_messages_cons, Hsends, Hmsgs.
    + simpl in Hd0. destruct (report.caught e0) as [text|] eqn:Hcaught0; [|done].
      destruct (IH ret (errors ++ [text])%list
                  (w ++ [admin.EvDeviceSend d0 "Test single notification";
                         admin.EvPrint e0])%list)
        as (added & Hloop & Hsends & Hmsgs).
      exists (admin.EvDeviceSend d0 "Test single notification" :: admin.EvPrint e0 :: added).
      split; [|by rewrite !device_sends_cons, !user_messages_cons, Hsends, Hmsgs].
      destruct e0; simpl in Hcaught0; simplify_eq;
        unfold admin.print, admin.external, m_bind, m_ret; cbv beta iota;
        rewrite <- !app_assoc; cbn [app]; rewrite Hloop; by rewrite <- ?app_assoc.
Qed.

(** Without bulk, the first send that raises an exception the action does
    not catch (a configuration error, a TypeError, a failed lookup) ends the
    action with that exception: the devices before it got their send, the
    devices after it get none, and the user is told nothing, not even about
    the failures caught before. *)
Theorem test_send_aborts_on_uncaught_exception E pre d post w e :
  Forall (fun d => report.handled
                     (admin.device_send_message E d "Test single notification") = true)
    pre ->
  admin.device_send_message E d "Test single notification" = Raise e ->
  report.caught e = None ->
  exists added,
    admin.send_messages E (pre ++ d :: post) false w = (Raise e, (w ++ added)%list) /\
    report.device_sends added = (pre ++ [d])%list /\
    report.user_messages added = [].
Proof.
  intros Hall Hsend Hcaught.
  destruct (single_loop_uncaught E (pre ++ d :: post) pre d post [] [] w e Hall Hsend Hcaught)
    as (added & Hloop & Hsends & Hmsgs).
  exists added. split; [|done].
  unfold admin.send_messages. unfold m_bind at 1. by rewrite Hloop.
Qed.

Lemma test_send_aborts_on_uncaught_exception_witness :
  exists added,
    admin.send_messages cases.misconfigured_admin ["A"; "B"; "C"; "D"] false []
      = (Raise (ImproperlyConfigured "TEAM_ID"), added) /\
    report.device_sends added = ["A"; "B"; "C"] /\
    report.user_messages added = [].
Proof.
  destruct (test_send_aborts_on_uncaught_exception cases.misconfigured_admin
              ["A"; "B"] "C" ["D"] [] (ImproperlyConfigured "TEAM_ID"))
    as (added & Hrun & Hsends & Hmsgs).
  - repeat constructor.
  - reflexivity.
  - reflexivity.
  - exists added. split; [exact Hrun|]. split; [exact Hsends | exact Hmsgs].
Defined.

(** The whole of a bulk test send over a queryset that is not empty, by the
    answer of the one queryset-level send: a truthy result is shown in one
    message as a list of that one result; a falsy result is not shown; an
    exception the action catches is printed and shown in one ERROR message;
    any other exception ends the action, with nothing shown. *)
Theorem bulk_test_send_outcome E d queryset w :
  let sent := admin.EvQuerysetSend (d :: queryset) "Test bulk notification" in
  admin.send_messages E (d :: queryset) true w =
    match admin.queryset_send_message E (d :: queryset) "Test bulk notification" with
    | Return r =>
        (Return tt,
         (w ++ sent ::
            (if truthy r
             then [admin.EvMessageUser (report.success_message true (PList [r]))]
             else []))%list)
    | Raise e =>
        match report.caught e with
        | Some text =>
            (Return tt,
             (w ++ [sent; admin.EvPrint e;
                    admin.EvMessageUser (report.error_message [text])])%list)
        | None => (Raise e, (w ++ [sent])%list)
        end
    end.
Proof.
  cbv zeta. unfold admin.send_messages. cbn [admin.send_messages_loop].
  unfold m_bind, try_except, admin.external, admin.message_user, admin.print, m_ret.
  destruct (admin.queryset_send_message E (d :: queryset) "Test bulk notification") as [r|e].
  - destruct (truthy r); cbn [app negb];
      unfold m_bind, admin.external, m_ret; rewrite <- ?app_assoc; reflexivity.
  - destruct e; cbn [report.caught app];
      unfold m_bind, admin.external, m_ret; rewrite <- ?app_assoc; reflexivity.
Qed.
